(* ===================================================================== *)
(* Portfolio backend (main.py, schemas.py): a shallow embedding of the   *)
(* request handlers and the properties of their specification.           *)
(* ===================================================================== *)
(* Documents are Python dicts with string keys: finite maps from field
   names to values.  Handlers run in a small state-and-exception monad
   over the storage collaborator, which is a parameter throughout
   (the `database` module is an external collaborator of main.py). *)

From Stdlib Require Import Ascii.
From stdpp Require Import gmap strings pretty list fin_maps.

Local Open Scope string_scope.
Local Open Scope list_scope.
Local Open Scope Z_scope.
#[local] Set Warnings "-register-all,-clear-no-such-hyp".

(* --------------------------------------------------------------------- *)
(* Values stored in documents                                            *)
(* --------------------------------------------------------------------- *)

(** A naive [datetime.datetime], as the driver decodes stored timestamps. *)
Record datetime := Datetime {
  year : Z; month : Z; day : Z;
  hour : Z; minute : Z; second : Z; microsecond : Z
}.

(** The Python values a stored document or a JSON body can hold. *)
Inductive value :=
| VNone
| VBool (b : bool)
| VInt (n : Z)
| VStr (s : string)
| VObjectId (oid : string)
| VDatetime (t : datetime)
| VList (xs : list value).

(** A document, a serialized record and a normalized item are all
    [Dict[str, Any]]. *)
Abbreviation dict := (gmap string value).

(** The two Python builtins [_serialize] calls on stored values: [str(x)]
    and [x.isoformat()].  Their results are fixed by the interpreter, not
    by this repository, so the development is parametric in them. *)
Class PyBuiltins := {
  py_str : value -> string;
  isoformat : datetime -> string
}.

(** [x is None] *)
Definition is_None (v : value) : bool :=
  match v with VNone => true | _ => false end.

(** [d.get(k)] and [d.get(k, default)] *)
Definition dict_get (d : dict) (k : string) : value := default VNone (d !! k).
Definition dict_get_default (d : dict) (k : string) (dflt : value) : value :=
  default dflt (d !! k).

(** [lst[:stop]] for an [int] stop: a negative stop counts from the end. *)
Definition slice_to {A : Type} (stop : Z) (l : list A) : list A :=
  if bool_decide (0 ≤ stop) then take (Z.to_nat stop) l
  else take (length l - Z.to_nat (- stop))%nat l.

(** A Python [str] is held as its UTF-8 encoding, one cell per byte.  A
    byte [10xxxxxx] continues the code point begun before it; any other
    byte begins one. *)
Definition is_continuation (c : ascii) : bool :=
  match c with
  | Ascii _ _ _ _ _ _ b6 b7 => b7 && negb b6
  end.

(** [s[:n]] on a string, for a non-negative literal bound: the first [n]
    code points, each with all of its bytes. *)
Fixpoint str_take (n : nat) (s : string) {struct s} : string :=
  match s with
  | EmptyString => ""
  | String c s' =>
      if is_continuation c then String c (str_take n s')
      else
        match n with
        | O => ""
        | S n' => String c (str_take n' s')
        end
  end.

Arguments str_take : simpl never.

(* --------------------------------------------------------------------- *)
(* _serialize                                                            *)
(* --------------------------------------------------------------------- *)

Section Serialize.
Context `{PyBuiltins}.

(** One round of the loop body
    [if k in d and hasattr(d[k], "isoformat"): d[k] = d[k].isoformat()];
    among the stored values only a date/time has [isoformat]. *)
Definition isoformat_field (d : dict) (k : string) : dict :=
  match d !! k with
  | Some (VDatetime t) => <[k := VStr (isoformat t)]> d
  | _ => d
  end.

(** [_serialize(doc)]: [None] stands for an absent document. *)
Definition _serialize (doc : option dict) : dict :=
  match doc with
  | None => ∅
  | Some doc =>
      if bool_decide (size doc = 0%nat) then ∅
      else
        let d := doc in
        let _id := default VNone (d !! "_id") in
        let d := delete "_id" d in
        let d := if is_None _id then d else <["id" := VStr (py_str _id)]> d in
        foldl isoformat_field d ["created_at"; "updated_at"]
  end.

(** The dict literal appended for a project [p] in [combined_portfolio]. *)
Definition normalize_project (p : dict) : dict :=
  let d := _serialize (Some p) in
  list_to_map
    [ ("id", dict_get d "id");
      ("type", VStr "project");
      ("title", dict_get d "title");
      ("description", dict_get d "description");
      ("image", dict_get d "image_url");
      ("demo", dict_get d "demo_url");
      ("source", dict_get d "source_url");
      ("author", dict_get d "author");
      ("tags", dict_get_default d "tags" (VList [])) ].

(** The dict literal appended for a submission [s]. *)
Definition normalize_submission (s : dict) : dict :=
  let d := _serialize (Some s) in
  list_to_map
    [ ("id", dict_get d "id");
      ("type", VStr "submission");
      ("title", dict_get d "title");
      ("description", dict_get d "description");
      ("image", dict_get d "thumbnail");
      ("demo", dict_get d "link");
      ("source", VNone);
      ("author", dict_get d "name");
      ("tags", dict_get_default d "tags" (VList [])) ].

(** The body of [combined_portfolio] once both fetches have returned:
    the two loops, [list(reversed(normalized))] and [normalized[:limit]].
    The local [sort_key] is defined and never called. *)
Definition portfolio_items (projects submissions : list dict) (limit : Z)
  : list dict :=
  let normalized := [] in
  let normalized := normalized ++ (normalize_project <$> projects) in
  let normalized := normalized ++ (normalize_submission <$> submissions) in
  let normalized := reverse normalized in
  slice_to limit normalized.
End Serialize.

(** A sample interpreter, enough to run the handlers on concrete records:
    [str] of an ObjectId is its hex digits, [isoformat] prints
    YYYY-MM-DDTHH:MM:SS (fraction omitted). *)
Definition digits2 (n : Z) : string :=
  pretty ((n / 10) mod 10) +:+ pretty (n mod 10).
Definition digits4 (n : Z) : string :=
  digits2 (n / 100) +:+ digits2 n.
Definition sample_isoformat (t : datetime) : string :=
  digits4 (year t) +:+ "-" +:+ digits2 (month t) +:+ "-" +:+ digits2 (day t)
  +:+ "T" +:+ digits2 (hour t) +:+ ":" +:+ digits2 (minute t)
  +:+ ":" +:+ digits2 (second t).
Definition sample_str (v : value) : string :=
  match v with
  | VNone => "None"
  | VBool true => "True"
  | VBool false => "False"
  | VInt n => pretty n
  | VStr s => s
  | VObjectId oid => oid
  | VDatetime t => sample_isoformat t
  | VList _ => "[...]"
  end.
Definition sample_builtins : PyBuiltins :=
  {| py_str := sample_str; isoformat := sample_isoformat |}.

(* --------------------------------------------------------------------- *)
(* schemas.py                                                            *)
(* --------------------------------------------------------------------- *)

Module schemas.
(** [class Submission(BaseModel)] *)
Record Submission := {
  name : string;
  title : string;
  description : option string;
  link : option string;
  thumbnail : option string;
  tags : list string
}.

(** One entry of a validation error: the field and what is wrong. *)
Inductive field_error :=
| Missing (loc : string)
| Invalid (loc : string)
| InvalidItem (loc : string) (index : nat).

(** The validators of the schema library for the leaf types the model
    uses ([str] and [HttpUrl]); which inputs they accept is the
    library's business. *)
Class Validators := {
  validate_str : value -> option string;
  validate_HttpUrl : value -> option string
}.

(** Validation collects the errors of all fields. *)
Definition checked (A : Type) : Type := (list field_error + A)%type.

Definition ap {A B : Type} (f : checked (A -> B)) (x : checked A) : checked B :=
  match f, x with
  | inr f, inr a => inr (f a)
  | inl e, inr _ => inl e
  | inr _, inl e => inl e
  | inl e1, inl e2 => inl (e1 ++ e2)
  end.

Definition errors_of {A : Type} (c : checked A) : list field_error :=
  match c with inl e => e | inr _ => [] end.

Definition check {A : Type} (k : string) (v : value -> option A) (x : value)
  : checked A :=
  match v x with Some a => inr a | None => inl [Invalid k] end.

(** [T = Field(...)]: the key must be present. *)
Definition required {A : Type} (body : dict) (k : string)
    (v : value -> option A) : checked A :=
  match body !! k with
  | None => inl [Missing k]
  | Some x => check k v x
  end.

(** [Optional[T] = Field(None)]: absent or null gives [None]. *)
Definition optional {A : Type} (body : dict) (k : string)
    (v : value -> option A) : checked (option A) :=
  match body !! k with
  | None | Some VNone => inr None
  | Some x => check k (fun x => Some <$> v x) x
  end.

(** [T = Field(default_factory=...)]: absent gives the default. *)
Definition defaulted {A : Type} (body : dict) (k : string) (dflt : A)
    (v : value -> option A) : checked A :=
  match body !! k with
  | None => inr dflt
  | Some x => check k v x
  end.

(** [List[T]]: each element is validated on its own, and each rejected
    element is an error of its own at the element's index. *)
Fixpoint check_items {A : Type} (k : string) (v : value -> option A)
    (i : nat) (xs : list value) : checked (list A) :=
  match xs with
  | [] => inr []
  | x :: xs' =>
      ap (ap (inr cons)
            (match v x with
             | Some a => inr a
             | None => inl [InvalidItem k i]
             end))
         (check_items k v (S i) xs')
  end.

Definition check_list {A : Type} (k : string) (v : value -> option A)
    (x : value) : checked (list A) :=
  match x with
  | VList xs => check_items k v 0 xs
  | _ => inl [Invalid k]
  end.

(** [List[T] = Field(default_factory=list)]: absent gives the empty
    list. *)
Definition defaulted_list {A : Type} (body : dict) (k : string)
    (v : value -> option A) : checked (list A) :=
  match body !! k with
  | None => inr []
  | Some x => check_list k v x
  end.

(** Building a [Submission] from a request body: the fields in
    declaration order. *)
Definition validate_Submission `{Validators} (body : dict)
  : checked Submission :=
  ap (ap (ap (ap (ap (ap (inr Build_Submission)
    (required body "name" validate_str))
    (required body "title" validate_str))
    (optional body "description" validate_str))
    (optional body "link" validate_HttpUrl))
    (optional body "thumbnail" validate_HttpUrl))
    (defaulted_list body "tags" validate_str).
(** [class Project(BaseModel)] *)
Record Project := {
  project_title : string;
  project_description : option string;
  image_url : option string;
  demo_url : option string;
  source_url : option string;
  author : option string;
  project_tags : list string
}.

(** [class User(BaseModel)] *)
Record User := {
  user_name : string;
  email : string;
  address : string;
  age : option Z;
  is_active : bool
}.

(** The library's validators for [int] and [bool] leaves. *)
Class ScalarValidators := {
  validate_int : value -> option Z;
  validate_bool : value -> option bool
}.

(** [Field(..., ge=lo, le=hi)] on an [int]: the bounds are checked on
    the validated number. *)
Definition ge_le (lo hi : Z) (v : value -> option Z) (x : value) : option Z :=
  match v x with
  | Some n => if bool_decide (lo ≤ n ∧ n ≤ hi) then Some n else None
  | None => None
  end.

(** Building a [Project] from a body: the fields in declaration order. *)
Definition validate_Project `{Validators} (body : dict) : checked Project :=
  ap (ap (ap (ap (ap (ap (ap (inr Build_Project)
    (required body "title" validate_str))
    (optional body "description" validate_str))
    (optional body "image_url" validate_HttpUrl))
    (optional body "demo_url" validate_HttpUrl))
    (optional body "source_url" validate_HttpUrl))
    (optional body "author" validate_str))
    (defaulted_list body "tags" validate_str).

(** Building a [User] from a body. *)
Definition validate_User `{Validators} `{ScalarValidators} (body : dict)
  : checked User :=
  ap (ap (ap (ap (ap (inr Build_User)
    (required body "name" validate_str))
    (required body "email" validate_str))
    (required body "address" validate_str))
    (optional body "age" (ge_le 0 120 validate_int)))
    (defaulted body "is_active" true validate_bool).

(** The field names each model declares. *)
Definition Submission_fields : list string :=
  ["name"; "title"; "description"; "link"; "thumbnail"; "tags"].
Definition Project_fields : list string :=
  ["title"; "description"; "image_url"; "demo_url"; "source_url"; "author";
   "tags"].

Definition error_loc (e : field_error) : string :=
  match e with
  | Missing loc => loc
  | Invalid loc => loc
  | InvalidItem loc _ => loc
  end.

End schemas.

(* --------------------------------------------------------------------- *)
(* Exceptions, storage and the handler monad                             *)
(* --------------------------------------------------------------------- *)

(** An exception caught by [except Exception as e], with [str(e)]. *)
Record exn := Exception { exn_str : string }.

(** What a request ends in when the handler does not return. *)
Inductive http_error :=
| HTTPException (status_code : Z) (detail : string)
| RequestValidationError (errors : list schemas.field_error).

Inductive result (E A : Type) :=
| Ok (a : A)
| Raised (e : E).
Arguments Ok {E A} a.
Arguments Raised {E A} e.

(** Reading an attribute of an object that is not ours: it may be
    missing, its getter may raise, or it has a value. *)
Inductive attr :=
| NoAttribute
| AttrRaises (e : exn)
| Attr (v : value).

(** The storage collaborator over its own state [W]. *)
Record Database (W : Type) := {
  db_name : attr;
  list_collection_names : W -> result exn (list string) * W
}.
Arguments db_name {W} _.
Arguments list_collection_names {W} _ _.

Record Storage (W : Type) := {
  get_documents : string -> dict -> Z -> W -> result exn (list dict) * W;
  create_document : string -> schemas.Submission -> W -> result exn string * W;
  db : option (Database W)
}.
Arguments get_documents {W} _ _ _ _ _.
Arguments create_document {W} _ _ _ _.
Arguments db {W} _.

(** The calls a handler made to storage, oldest first. *)
Inductive call :=
| Call_get_documents (collection_name : string) (filter_dict : dict) (limit : Z)
| Call_create_document (collection_name : string) (data : schemas.Submission)
| Call_list_collection_names.

Record world (W : Type) := World { store : W; calls : list call }.
Arguments World {W} _ _.
Arguments store {W} _.
Arguments calls {W} _.

(** State and exceptions: a raise keeps the state reached so far. *)
Definition M (Σ E A : Type) : Type := Σ -> result E A * Σ.

Definition ret {Σ E A : Type} (a : A) : M Σ E A := fun s => (Ok a, s).

Definition bind {Σ E A B : Type} (m : M Σ E A) (f : A -> M Σ E B) : M Σ E B :=
  fun s =>
    match m s with
    | (Ok a, s') => f a s'
    | (Raised e, s') => (Raised e, s')
    end.

Definition raise {Σ E A : Type} (e : E) : M Σ E A := fun s => (Raised e, s).

(** [try: body  except Exception as e: handler e] *)
Definition try_except {Σ E E' A : Type} (body : M Σ E A)
    (handler : E -> M Σ E' A) : M Σ E' A :=
  fun s =>
    match body s with
    | (Ok a, s') => (Ok a, s')
    | (Raised e, s') => handler e s'
    end.

Notation "'let*' x ':=' m 'in' k" := (bind m (fun x => k))
  (at level 10, x name, m at level 100, k at level 200,
   format "'let*'  x  :=  m  in  '//' k").
Notation "'run' m 'then' k" := (bind m (fun _ => k))
  (at level 10, m at level 100, k at level 200,
   format "'run'  m  then  '//' k").

(* --------------------------------------------------------------------- *)
(* main.py: the handlers                                                 *)
(* --------------------------------------------------------------------- *)

(** [{"items": [...]}] *)
Record items_response := { items : list dict }.

(** [{"success": ..., "id": ...}] *)
Record submit_response := { success : bool; id : string }.

(** [os.getenv(k)] used as a condition: set and not the empty string. *)
Definition getenv_truthy (env : gmap string string) (k : string) : bool :=
  match env !! k with
  | Some v => negb (String.eqb v "")
  | None => false
  end.

Section Handlers.
Context `{PyBuiltins} `{schemas.Validators} {W : Type} (st : Storage W).

(** The imported storage functions, each call recorded. *)
Definition call_get_documents (collection_name : string) (filter_dict : dict)
    (limit : Z) : M (world W) exn (list dict) :=
  fun w =>
    let '(r, s') := get_documents st collection_name filter_dict limit (store w) in
    (r, World s' (calls w ++ [Call_get_documents collection_name filter_dict limit])).

Definition call_create_document (collection_name : string)
    (data : schemas.Submission) : M (world W) exn string :=
  fun w =>
    let '(r, s') := create_document st collection_name data (store w) in
    (r, World s' (calls w ++ [Call_create_document collection_name data])).

Definition call_list_collection_names (d : Database W)
  : M (world W) exn (list string) :=
  fun w =>
    let '(r, s') := list_collection_names d (store w) in
    (r, World s' (calls w ++ [Call_list_collection_names])).

(** [raise HTTPException(status_code=500, detail=str(e))] *)
Definition raise_500 {A : Type} (e : exn) : M (world W) http_error A :=
  raise (HTTPException 500 (exn_str e)).

(** [GET /api/projects] *)
Definition list_projects (limit : Z) : M (world W) http_error items_response :=
  try_except
    (let* items := call_get_documents "project" ∅ limit in
     ret {| items := (fun i => _serialize (Some i)) <$> items |})
    raise_500.

(** [GET /api/submissions] *)
Definition list_submissions (limit : Z)
  : M (world W) http_error items_response :=
  try_except
    (let* items := call_get_documents "submission" ∅ limit in
     ret {| items := (fun i => _serialize (Some i)) <$> items |})
    raise_500.

(** [GET /api/portfolio] *)
Definition combined_portfolio (limit : Z)
  : M (world W) http_error items_response :=
  try_except
    (let* projects := call_get_documents "project" ∅ limit in
     let* submissions := call_get_documents "submission" ∅ limit in
     ret {| items := portfolio_items projects submissions limit |})
    raise_500.

(** [POST /api/submit], the handler proper: called with a validated item. *)
Definition submit_portfolio (item : schemas.Submission)
  : M (world W) http_error submit_response :=
  try_except
    (let* new_id := call_create_document "submission" item in
     ret {| success := true; id := new_id |})
    raise_500.

(** The route as the framework serves it: the body is validated against
    the parameter's model first, and only a valid item reaches the
    handler. *)
Definition post_api_submit (body : dict)
  : M (world W) http_error submit_response :=
  match schemas.validate_Submission body with
  | inl errors => raise (RequestValidationError errors)
  | inr item => submit_portfolio item
  end.

(* [GET /test]: the local [response] dict is mutated in place, so it is
   part of the state and keeps what was assigned before a raise. *)
Definition set_item (k : string) (v : value) : M (world W * dict) exn unit :=
  fun '(w, response) => (Ok tt, (w, <[k := v]> response)).

Definition in_world {A : Type} (m : M (world W) exn A)
  : M (world W * dict) exn A :=
  fun '(w, response) => let '(r, w') := m w in (r, (w', response)).

(** [hasattr(db, 'name')] lets anything but a missing attribute through. *)
Definition hasattr_name (d : Database W) : M (world W * dict) exn bool :=
  match db_name d with
  | NoAttribute => ret false
  | AttrRaises e => raise e
  | Attr _ => ret true
  end.

(** [db.name] *)
Definition getattr_name (d : Database W) : M (world W * dict) exn value :=
  match db_name d with
  | NoAttribute => raise (Exception "'Database' object has no attribute 'name'")
  | AttrRaises e => raise e
  | Attr v => ret v
  end.

Definition initial_response : dict :=
  list_to_map
    [ ("backend", VStr "✅ Running");
      ("database", VStr "❌ Not Available");
      ("database_url", VNone);
      ("database_name", VNone);
      ("connection_status", VStr "Not Connected");
      ("collections", VList []) ].

Definition storage_check : M (world W * dict) exn unit :=
  try_except
    (match db st with
     | Some d =>
         run set_item "database" (VStr "✅ Available") then
         run set_item "database_url" (VStr "✅ Configured") then
         let* has_name := hasattr_name d in
         let* name :=
           (if has_name : bool then getattr_name d
            else ret (VStr "✅ Connected")) in
         run set_item "database_name" name then
         run set_item "connection_status" (VStr "Connected") then
         try_except
           (let* collections := in_world (call_list_collection_names d) in
            run set_item "collections" (VList (VStr <$> slice_to 10 collections)) then
            set_item "database" (VStr "✅ Connected & Working"))
           (fun e =>
              set_item "database"
                (VStr ("⚠️  Connected but Error: " +:+ str_take 50 (exn_str e))))
     | None =>
         set_item "database" (VStr "⚠️  Available but not initialized")
     end)
    (fun e =>
       set_item "database" (VStr ("❌ Error: " +:+ str_take 50 (exn_str e)))).

Definition env_check (env : gmap string string) : M (world W * dict) exn unit :=
  run set_item "database_url"
        (VStr (if getenv_truthy env "DATABASE_URL" then "✅ Set" else "❌ Not Set")) then
  set_item "database_name"
    (VStr (if getenv_truthy env "DATABASE_NAME" then "✅ Set" else "❌ Not Set")).

Definition test_database (env : gmap string string) : M (world W) exn dict :=
  fun w =>
    match (run storage_check then env_check env) (w, initial_response) with
    | (Ok _, (w', response)) => (Ok response, w')
    | (Raised e, (w', _)) => (Raised e, w')
    end.
End Handlers.

(* --------------------------------------------------------------------- *)
(* Text as code points                                                   *)
(* --------------------------------------------------------------------- *)

(** The byte [10xxxxxx] carrying the low six bits of [x]. *)
Definition continuation_byte (x : N) : ascii :=
  Ascii (N.testbit x 0) (N.testbit x 1) (N.testbit x 2) (N.testbit x 3)
        (N.testbit x 4) (N.testbit x 5) false true.

(** UTF-8 of one code point: one byte below U+0080, two below U+0800,
    three below U+10000, four above. *)
Definition encode_code_point (c : N) : string :=
  if (c <? 128)%N then
    String (Ascii (N.testbit c 0) (N.testbit c 1) (N.testbit c 2)
                  (N.testbit c 3) (N.testbit c 4) (N.testbit c 5)
                  (N.testbit c 6) false) ""
  else if (c <? 2048)%N then
    String (Ascii (N.testbit c 6) (N.testbit c 7) (N.testbit c 8)
                  (N.testbit c 9) (N.testbit c 10) false true true)
      (String (continuation_byte c) "")
  else if (c <? 65536)%N then
    String (Ascii (N.testbit c 12) (N.testbit c 13) (N.testbit c 14)
                  (N.testbit c 15) false true true true)
      (String (continuation_byte (N.shiftr c 6))
         (String (continuation_byte c) ""))
  else
    String (Ascii (N.testbit c 18) (N.testbit c 19) (N.testbit c 20)
                  false true true true true)
      (String (continuation_byte (N.shiftr c 12))
         (String (continuation_byte (N.shiftr c 6))
            (String (continuation_byte c) ""))).

(** The string whose characters are the code points [cps], in order. *)
Definition utf8_encode (cps : list N) : string :=
  foldr (λ c s, encode_code_point c +:+ s) "" cps.

(* --------------------------------------------------------------------- *)
(* Vocabulary of the statements                                          *)
(* --------------------------------------------------------------------- *)

Section Vocabulary.
Context `{PyBuiltins}.

(** What the timestamp loop does to one value. *)
Definition coerce_datetime (v : value) : value :=
  match v with
  | VDatetime t => VStr (isoformat t)
  | _ => v
  end.

(** The serialized record read field by field, in terms of the raw one. *)
Definition serialized_field (doc : dict) (k : string) : option value :=
  if decide (k = "_id") then None
  else if decide (k = "id") then
    match doc !! "_id" with
    | Some v => if is_None v then doc !! "id" else Some (VStr (py_str v))
    | None => doc !! "id"
    end
  else if decide (k = "created_at" ∨ k = "updated_at") then
    coerce_datetime <$> doc !! k
  else doc !! k.

(** Fields that serialization neither renames nor coerces. *)
Definition plain_field (k : string) : Prop :=
  k ≠ "_id" ∧ k ≠ "id" ∧ k ≠ "created_at" ∧ k ≠ "updated_at".

(** The keys of a normalized portfolio item. *)
Definition item_keys : gset string :=
  {[ "id"; "type"; "title"; "description"; "image"; "demo"; "source";
     "author"; "tags" ]}.

(** The fields of a raw record that normalization reads. *)
Definition project_fields : list string :=
  ["_id"; "id"; "title"; "description"; "image_url"; "demo_url";
   "source_url"; "author"; "tags"].
Definition submission_fields : list string :=
  ["_id"; "id"; "title"; "description"; "thumbnail"; "link"; "name"; "tags"].

(** The raw record cut down to the listed fields. *)
Definition restrict (fields : list string) (doc : dict) : dict :=
  filter (λ kv, kv.1 ∈ fields) doc.

(** Source field and the item key it is copied to. *)
Definition project_mapping : list (string * string) :=
  [("title", "title"); ("description", "description");
   ("image_url", "image"); ("demo_url", "demo"); ("source_url", "source");
   ("author", "author")].
Definition submission_mapping : list (string * string) :=
  [("title", "title"); ("description", "description");
   ("thumbnail", "image"); ("link", "demo"); ("name", "author")].

(** The keys of the diagnostic response. *)
Definition diagnostic_keys : gset string :=
  {[ "backend"; "database"; "database_url"; "database_name";
     "connection_status"; "collections" ]}.
End Vocabulary.

(* --------------------------------------------------------------------- *)
(* Sample records                                                        *)
(* --------------------------------------------------------------------- *)

Definition t0 : datetime := Datetime 2024 1 2 3 4 5 0.

Definition docP : dict :=
  list_to_map
    [ ("_id", VObjectId "65a1"); ("title", VStr "P");
      ("image_url", VStr "http://i/p.png"); ("author", VStr "ann");
      ("created_at", VDatetime t0) ].

Definition docS : dict :=
  list_to_map
    [ ("_id", VObjectId "65b2"); ("title", VStr "S"); ("name", VStr "bob");
      ("link", VStr "http://s/demo"); ("updated_at", VDatetime t0) ].

(** A record with a date/time under a name of its own. *)
Definition doc_due : dict :=
  list_to_map [ ("title", VStr "T"); ("due", VDatetime t0) ].

(* --------------------------------------------------------------------- *)
(* A sample storage                                                      *)
(* --------------------------------------------------------------------- *)

(** Two collections held in memory, and the collections that are down:
    a fetch from one of those raises, any other returns the whole
    collection whatever the limit. *)
Record sample_store := SampleStore {
  projects_of : list dict;
  submissions_of : list dict;
  down : list string
}.

Definition refused : exn := Exception "connection refused".

Definition sample_document (data : schemas.Submission) : dict :=
  list_to_map
    [ ("_id", VObjectId "65c3");
      ("name", VStr (schemas.name data));
      ("title", VStr (schemas.title data)) ].

Definition sample_database : Database sample_store :=
  {| db_name := Attr (VStr "portfolio");
     list_collection_names := fun s =>
       if bool_decide ("admin" ∈ down s) then (Raised refused, s)
       else (Ok ["project"; "submission"], s) |}.

Definition sample_storage (d : option (Database sample_store))
  : Storage sample_store :=
  {| get_documents := fun collection_name _ _ s =>
       if bool_decide (collection_name ∈ down s) then (Raised refused, s)
       else if String.eqb collection_name "project" then (Ok (projects_of s), s)
       else (Ok (submissions_of s), s);
     create_document := fun collection_name data s =>
       if bool_decide (collection_name ∈ down s) then (Raised refused, s)
       else (Ok "65c3",
             SampleStore (projects_of s)
               (submissions_of s ++ [sample_document data]) (down s));
     db := d |}.

Definition sample_validators : schemas.Validators :=
  {| schemas.validate_str := fun x =>
       match x with VStr s => Some s | _ => None end;
     schemas.validate_HttpUrl := fun x =>
       match x with
       | VStr s => if String.prefix "http" s then Some s else None
       | _ => None
       end |}.

Definition world0 (down : list string) : world sample_store :=
  World (SampleStore [doc_due] [docS] down) [].

Definition body_ok : dict :=
  list_to_map [ ("name", VStr "bob"); ("title", VStr "S") ].
Definition item_ok : schemas.Submission :=
  schemas.Build_Submission "bob" "S" None None None [].
Definition body_no_title : dict :=
  list_to_map [ ("name", VStr "bob") ].

(** A record that carries both [_id] and an [id] of its own. *)
Definition doc_two_ids : dict :=
  list_to_map [ ("_id", VObjectId "65a1"); ("id", VInt 5) ].

(** Environments: DATABASE_URL set to the empty string, and to a URL. *)
Definition env_empty_url : gmap string string := {[ "DATABASE_URL" := "" ]}.
Definition env_url : gmap string string :=
  {[ "DATABASE_URL" := "mongodb://localhost" ]}.

(* --------------------------------------------------------------------- *)
(* The unused sort key, and Python truth values                          *)
(* --------------------------------------------------------------------- *)

(** [bool(x)] for a stored value. *)
Definition truthy (v : value) : bool :=
  match v with
  | VNone => false
  | VBool b => b
  | VInt n => negb (n =? 0)
  | VStr s => negb (String.eqb s "")
  | VObjectId _ => true
  | VDatetime _ => true
  | VList xs => match xs with [] => false | _ :: _ => true end
  end.

(** [a or b] *)
Definition py_or (a b : value) : value := if truthy a then a else b.

(** The local function [sort_key] of [combined_portfolio]:
    [x.get("updated_at") or x.get("created_at") or ""]. *)
Definition sort_key (x : dict) : value :=
  py_or (py_or (dict_get x "updated_at") (dict_get x "created_at")) (VStr "").

Definition body_user : dict :=
  list_to_map [ ("name", VStr "ann"); ("email", VStr "ann@x.org");
                ("address", VStr "1 Main St"); ("age", VInt 41) ].

Definition sample_scalars : schemas.ScalarValidators :=
  {| schemas.validate_int := fun x =>
       match x with VInt n => Some n | _ => None end;
     schemas.validate_bool := fun x =>
       match x with VBool b => Some b | _ => None end |}.

(** A record with an [id] of its own and no storage identifier, and one
    whose [tags] is an explicit null. *)
Definition doc_own_id : dict :=
  list_to_map [ ("id", VInt 7); ("title", VStr "T") ].
Definition doc_null_tags : dict :=
  list_to_map [ ("title", VStr "T"); ("tags", VNone) ].

(** A handle whose [name] cannot be read. *)
Definition broken_database : Database sample_store :=
  {| db_name := AttrRaises refused;
     list_collection_names := fun s => (Ok ["project"; "submission"], s) |}.

Definition body_project : dict := list_to_map [ ("title", VStr "P") ].

(** An error text of sixty characters, each the three-byte U+274C, and
    a handle whose listing raises it. *)
Definition sixty_crosses : exn := Exception (utf8_encode (replicate 60 10060%N)).
Definition garbled_database : Database sample_store :=
  {| db_name := Attr (VStr "portfolio");
     list_collection_names := fun s => (Raised sixty_crosses, s) |}.
Definition garbled_name_database : Database sample_store :=
  {| db_name := AttrRaises sixty_crosses;
     list_collection_names := fun s => (Ok ["project"; "submission"], s) |}.

Definition body_bad_tags : dict :=
  list_to_map [ ("name", VStr "bob"); ("title", VStr "S");
                ("tags", VList [VStr "a"; VInt 1; VStr "b"; VInt 2]) ].

(* ===================================================================== *)
(* Properties                                                            *)
(* ===================================================================== *)

(* --------------------------------------------------------------------- *)
(* Serialization, field by field                                         *)
(* --------------------------------------------------------------------- *)

Section SerializeFacts.
Context `{PyBuiltins}.

Lemma isoformat_field_lookup (d : dict) (k j : string) :
  isoformat_field d k !! j
  = if decide (j = k) then coerce_datetime <$> d !! k else d !! j.
Proof.
  unfold isoformat_field.
  destruct (d !! k) as [v|] eqn:Hk.
  - destruct v; case_decide; subst; simplify_map_eq; done.
  - case_decide; subst; simplify_map_eq; done.
Qed.

Lemma coerce_datetime_idem (v : value) :
  coerce_datetime (coerce_datetime v) = coerce_datetime v.
Proof. by destruct v. Qed.

Lemma serialize_lookup (doc : dict) (k : string) :
  _serialize (Some doc) !! k = serialized_field doc k.
Proof.
  unfold _serialize, serialized_field.
  case_bool_decide as Hsz.
  - apply map_size_empty_iff in Hsz. subst doc.
    rewrite !lookup_empty. repeat case_decide; done.
  - simpl. rewrite !isoformat_field_lookup.
    destruct (doc !! "_id") as [v|] eqn:Hid; simpl.
    + destruct (is_None v) eqn:Hv;
        repeat case_decide; subst; simplify_map_eq; try done;
        naive_solver.
    + repeat case_decide; subst; simplify_map_eq; try done; naive_solver.
Qed.

Lemma serialize_absent_or_empty :
  _serialize None = ∅ ∧ _serialize (Some ∅) = ∅.
Proof. split; reflexivity. Qed.

Lemma serialize_plain (doc : dict) (k : string) :
  plain_field k → _serialize (Some doc) !! k = doc !! k.
Proof.
  intros (? & ? & ? & ?). rewrite serialize_lookup. unfold serialized_field.
  repeat case_decide; naive_solver.
Qed.

Lemma serialize_get_plain (doc : dict) (k : string) :
  plain_field k → dict_get (_serialize (Some doc)) k = dict_get doc k.
Proof. intros Hk. unfold dict_get. by rewrite serialize_plain. Qed.
End SerializeFacts.

(* --------------------------------------------------------------------- *)
(* The serialization contract                                            *)
(* --------------------------------------------------------------------- *)

Section SerializeContract.
Context `{PyBuiltins}.

(** C2, as amended.  Serialization coerces the [created_at] and
    [updated_at] fields to their ISO-8601 string when they hold a
    date/time; every other field except [_id] keeps its value, a
    date/time under another name included; [id] keeps its value when
    the record carries no non-null [_id]. *)
Theorem serialize_coerces_timestamp_fields (doc : dict) (k : string) (v : value) :
  k ≠ "_id" →
  (k = "id" → dict_get doc "_id" = VNone) →
  doc !! k = Some v →
  _serialize (Some doc) !! k
  = Some (if decide (k = "created_at" ∨ k = "updated_at")
          then coerce_datetime v else v).
Proof.
  intros Hk Hid Hv. rewrite serialize_lookup. unfold serialized_field.
  rewrite decide_False by done.
  destruct (decide (k = "id")) as [->|Hne].
  - specialize (Hid eq_refl). unfold dict_get in Hid.
    rewrite decide_False by (intros [?|?]; done).
    destruct (doc !! "_id") as [w|]; simpl in Hid; subst; simpl; done.
  - case_decide; by rewrite Hv.
Qed.

(** C4.  A record carrying a storage-assigned identifier serializes to
    a record without the [_id] key whose [id] is that identifier as a
    string; an absent or empty record serializes to the empty object. *)
Theorem serialize_identifier_contract :
  (∀ (doc : dict) (v : value),
      doc !! "_id" = Some v → v ≠ VNone →
      ("_id" ∉ dom (_serialize (Some doc)))
      ∧ _serialize (Some doc) !! "id" = Some (VStr (py_str v)))
  ∧ _serialize None = ∅
  ∧ _serialize (Some ∅) = ∅.
Proof.
  split; [|exact serialize_absent_or_empty].
  intros doc v Hid Hv. split.
  - rewrite not_elem_of_dom, serialize_lookup. reflexivity.
  - rewrite serialize_lookup. unfold serialized_field. simpl.
    rewrite Hid. by destruct v.
Qed.
End SerializeContract.

(* --------------------------------------------------------------------- *)
(* Normalization                                                         *)
(* --------------------------------------------------------------------- *)

Section Normalize.
Context `{PyBuiltins}.

Lemma restrict_lookup (fields : list string) (doc : dict) (k : string) :
  k ∈ fields → restrict fields doc !! k = doc !! k.
Proof.
  intros Hk. unfold restrict. apply option_eq. intros v.
  rewrite map_lookup_filter_Some. naive_solver.
Qed.

(** The serialized [id] is read off the raw [_id] and [id] only. *)
Lemma serialize_get_id (doc : dict) :
  dict_get (_serialize (Some doc)) "id"
  = match doc !! "_id" with
    | Some v => if is_None v then dict_get doc "id" else VStr (py_str v)
    | None => dict_get doc "id"
    end.
Proof.
  unfold dict_get. rewrite serialize_lookup. unfold serialized_field. simpl.
  destruct (doc !! "_id") as [v|]; [destruct (is_None v)|]; done.
Qed.

Lemma serialize_get_tags (doc : dict) :
  dict_get_default (_serialize (Some doc)) "tags" (VList [])
  = dict_get_default doc "tags" (VList []).
Proof.
  unfold dict_get_default. rewrite serialize_plain; [done|].
  repeat split; done.
Qed.

Lemma normalize_project_eq (p : dict) :
  normalize_project p
  = list_to_map
      [ ("id", dict_get (_serialize (Some p)) "id");
        ("type", VStr "project");
        ("title", dict_get p "title");
        ("description", dict_get p "description");
        ("image", dict_get p "image_url");
        ("demo", dict_get p "demo_url");
        ("source", dict_get p "source_url");
        ("author", dict_get p "author");
        ("tags", dict_get_default p "tags" (VList [])) ].
Proof.
  unfold normalize_project. cbv zeta.
  rewrite serialize_get_tags.
  rewrite (serialize_get_plain p "title"), (serialize_get_plain p "description"),
    (serialize_get_plain p "image_url"), (serialize_get_plain p "demo_url"),
    (serialize_get_plain p "source_url"), (serialize_get_plain p "author")
    by (repeat split; done).
  reflexivity.
Qed.

Lemma normalize_submission_eq (s : dict) :
  normalize_submission s
  = list_to_map
      [ ("id", dict_get (_serialize (Some s)) "id");
        ("type", VStr "submission");
        ("title", dict_get s "title");
        ("description", dict_get s "description");
        ("image", dict_get s "thumbnail");
        ("demo", dict_get s "link");
        ("source", VNone);
        ("author", dict_get s "name");
        ("tags", dict_get_default s "tags" (VList [])) ].
Proof.
  unfold normalize_submission. cbv zeta.
  rewrite serialize_get_tags.
  rewrite (serialize_get_plain s "title"), (serialize_get_plain s "description"),
    (serialize_get_plain s "thumbnail"), (serialize_get_plain s "link"),
    (serialize_get_plain s "name")
    by (repeat split; done).
  reflexivity.
Qed.

(** C3.  A project's item takes [image], [demo], [source] and [author]
    from the project's [image_url], [demo_url], [source_url] and
    [author] (null when the project has none); a submission's item takes
    [demo], [image] and [author] from [link], [thumbnail] and [name] and
    has a null [source]; the items are tagged "project" and
    "submission". *)
Theorem normalize_field_mapping (p s : dict) :
  normalize_project p !! "image" = Some (dict_get p "image_url")
  ∧ normalize_project p !! "demo" = Some (dict_get p "demo_url")
  ∧ normalize_project p !! "source" = Some (dict_get p "source_url")
  ∧ normalize_project p !! "author" = Some (dict_get p "author")
  ∧ normalize_project p !! "type" = Some (VStr "project")
  ∧ normalize_submission s !! "demo" = Some (dict_get s "link")
  ∧ normalize_submission s !! "image" = Some (dict_get s "thumbnail")
  ∧ normalize_submission s !! "author" = Some (dict_get s "name")
  ∧ normalize_submission s !! "source" = Some VNone
  ∧ normalize_submission s !! "type" = Some (VStr "submission").
Proof.
  rewrite normalize_project_eq, normalize_submission_eq.
  repeat split; reflexivity.
Qed.

Lemma normalize_project_restrict (r : dict) :
  normalize_project r = normalize_project (restrict project_fields r).
Proof.
  rewrite !normalize_project_eq, !serialize_get_id.
  unfold dict_get, dict_get_default.
  rewrite !(restrict_lookup project_fields) by (unfold project_fields; set_solver).
  reflexivity.
Qed.

Lemma normalize_submission_restrict (r : dict) :
  normalize_submission r = normalize_submission (restrict submission_fields r).
Proof.
  rewrite !normalize_submission_eq, !serialize_get_id.
  unfold dict_get, dict_get_default.
  rewrite !(restrict_lookup submission_fields)
    by (unfold submission_fields; set_solver).
  reflexivity.
Qed.

(** C9.  Whatever fields a record has or lacks, its normalized item has
    exactly the nine keys id, type, title, description, image, demo,
    source, author and tags; a mapped field the record lacks comes out
    null, and tags as the empty list; every other field of the record,
    created_at and updated_at included, has no effect on the item. *)
Theorem normalize_total_nine_keys (r : dict) :
  dom (normalize_project r) = item_keys
  ∧ dom (normalize_submission r) = item_keys
  ∧ normalize_project r = normalize_project (restrict project_fields r)
  ∧ normalize_submission r = normalize_submission (restrict submission_fields r)
  ∧ (∀ src dst : string, (src, dst) ∈ project_mapping →
       r !! src = None → normalize_project r !! dst = Some VNone)
  ∧ (∀ src dst : string, (src, dst) ∈ submission_mapping →
       r !! src = None → normalize_submission r !! dst = Some VNone)
  ∧ (r !! "tags" = None →
       normalize_project r !! "tags" = Some (VList [])
       ∧ normalize_submission r !! "tags" = Some (VList []))
  ∧ (r !! "_id" = None → r !! "id" = None →
       normalize_project r !! "id" = Some VNone
       ∧ normalize_submission r !! "id" = Some VNone).
Proof.
  split; [by rewrite normalize_project_eq|].
  split; [by rewrite normalize_submission_eq|].
  split; [apply normalize_project_restrict|].
  split; [apply normalize_submission_restrict|].
  rewrite normalize_project_eq, normalize_submission_eq, serialize_get_id.
  unfold dict_get, dict_get_default.
  split; [|split; [|split]].
  - intros src dst Hin Hsrc. unfold project_mapping in Hin.
    repeat (apply elem_of_cons in Hin as [[= -> ->]|Hin];
            [by rewrite Hsrc|]).
    by apply elem_of_nil in Hin.
  - intros src dst Hin Hsrc. unfold submission_mapping in Hin.
    repeat (apply elem_of_cons in Hin as [[= -> ->]|Hin];
            [by rewrite Hsrc|]).
    by apply elem_of_nil in Hin.
  - intros Ht. by rewrite Ht.
  - intros Hid Hid'. by rewrite Hid, Hid'.
Qed.
End Normalize.

(* --------------------------------------------------------------------- *)
(* The list and portfolio handlers                                       *)
(* --------------------------------------------------------------------- *)

Lemma slice_to_nonneg {A : Type} (n : Z) (l : list A) :
  0 ≤ n → slice_to n l = take (Z.to_nat n) l.
Proof. intros Hn. unfold slice_to. by rewrite bool_decide_eq_true_2. Qed.

Lemma slice_to_neg {A : Type} (n : Z) (l : list A) :
  n < 0 → slice_to n l = take (length l - Z.to_nat (- n))%nat l.
Proof. intros Hn. unfold slice_to. rewrite bool_decide_eq_false_2; [done|lia]. Qed.

Lemma slice_to_length_nonneg {A : Type} (n : Z) (l : list A) :
  0 ≤ n → Z.of_nat (length (slice_to n l)) ≤ n.
Proof. intros Hn. rewrite slice_to_nonneg, length_take by done. lia. Qed.

Section ListHandlers.
Context `{PyBuiltins} {W : Type} (st : Storage W).

Lemma call_get_documents_run (collection_name : string) (filter_dict : dict)
    (limit : Z) (w : world W) :
  call_get_documents st collection_name filter_dict limit w
  = ((get_documents st collection_name filter_dict limit (store w)).1,
     World (get_documents st collection_name filter_dict limit (store w)).2
       (calls w ++ [Call_get_documents collection_name filter_dict limit])).
Proof.
  unfold call_get_documents.
  by destruct (get_documents st collection_name filter_dict limit (store w)).
Qed.

(** C1, as amended.  For a limit that is not negative and whatever
    lists of projects and submissions storage returns, the combined
    portfolio is the normalized projects followed by the normalized
    submissions, reversed as a whole and cut to its first [limit] items;
    nothing is compared or sorted, and at most [limit] items come back. *)
Theorem combined_portfolio_reversal (limit : Z) (w : world W)
    (projects submissions : list dict) (s1 s2 : W) :
  0 ≤ limit →
  get_documents st "project" ∅ limit (store w) = (Ok projects, s1) →
  get_documents st "submission" ∅ limit s1 = (Ok submissions, s2) →
  ∃ (its : list dict) (w' : world W),
    combined_portfolio st limit w = (Ok {| items := its |}, w')
    ∧ its = take (Z.to_nat limit)
              (reverse ((normalize_project <$> projects)
                        ++ (normalize_submission <$> submissions)))
    ∧ Z.of_nat (length its) ≤ limit.
Proof.
  intros Hlimit Hp Hs.
  eexists _, _. split; [|split].
  - unfold combined_portfolio, try_except, bind, ret.
    rewrite call_get_documents_run, Hp. simpl.
    rewrite call_get_documents_run. simpl. rewrite Hs. simpl.
    reflexivity.
  - unfold portfolio_items. by rewrite slice_to_nonneg.
  - by apply slice_to_length_nonneg.
Qed.

(** For a negative limit the slice keeps all but the last [-limit] items
    of the reversed list. *)
Lemma portfolio_items_negative_limit (limit : Z) (projects submissions : list dict) :
  limit < 0 →
  portfolio_items projects submissions limit
  = take (length projects + length submissions - Z.to_nat (- limit))%nat
      (reverse ((normalize_project <$> projects)
                ++ (normalize_submission <$> submissions))).
Proof.
  intros Hlimit. unfold portfolio_items. simpl.
  rewrite slice_to_neg by done.
  by rewrite length_reverse, length_app, !length_fmap.
Qed.

(** C5.  When storage, asked for up to [limit] documents of a kind,
    returns at most [limit] of them, the list handler of that kind
    returns their serializations in the same order, at most [limit]
    of them. *)
Theorem list_by_kind_bounded (limit : Z) (w : world W) (docs : list dict) (s' : W) :
  0 ≤ limit →
  Z.of_nat (length docs) ≤ limit →
  (get_documents st "project" ∅ limit (store w) = (Ok docs, s') →
     ∃ (its : list dict) (w' : world W),
       list_projects st limit w = (Ok {| items := its |}, w')
       ∧ its = (λ i, _serialize (Some i)) <$> docs
       ∧ Z.of_nat (length its) ≤ limit)
  ∧ (get_documents st "submission" ∅ limit (store w) = (Ok docs, s') →
     ∃ (its : list dict) (w' : world W),
       list_submissions st limit w = (Ok {| items := its |}, w')
       ∧ its = (λ i, _serialize (Some i)) <$> docs
       ∧ Z.of_nat (length its) ≤ limit).
Proof.
  intros Hlimit Hlen. split; intros Hget; eexists _, _.
  - split; [|split; [reflexivity|by rewrite length_fmap]].
    unfold list_projects, try_except, bind, ret.
    rewrite call_get_documents_run, Hget. reflexivity.
  - split; [|split; [reflexivity|by rewrite length_fmap]].
    unfold list_submissions, try_except, bind, ret.
    rewrite call_get_documents_run, Hget. reflexivity.
Qed.
End ListHandlers.

(* --------------------------------------------------------------------- *)
(* Storage failures and the submit route                                 *)
(* --------------------------------------------------------------------- *)

Section Validation.
Import schemas.

Lemma ap_errors {A B : Type} (f : checked (A → B)) (x : checked A) :
  errors_of (ap f x) = errors_of f ++ errors_of x.
Proof. destruct f, x; simpl; by rewrite ?app_nil_r. Qed.

Lemma required_missing {A : Type} (body : dict) (k : string)
    (v : value → option A) :
  body !! k = None → errors_of (required body k v) = [Missing k].
Proof. intros Hk. unfold required. by rewrite Hk. Qed.

Context `{Validators}.

Lemma validate_Submission_errors (body : dict) :
  errors_of (validate_Submission body)
  = errors_of (required body "name" validate_str)
    ++ errors_of (required body "title" validate_str)
    ++ errors_of (optional body "description" validate_str)
    ++ errors_of (optional body "link" validate_HttpUrl)
    ++ errors_of (optional body "thumbnail" validate_HttpUrl)
    ++ errors_of (defaulted_list body "tags" validate_str).
Proof.
  unfold validate_Submission. rewrite !ap_errors. simpl.
  by rewrite <- !(assoc_L (++)).
Qed.

Lemma validate_Submission_missing (body : dict) (k : string) :
  k = "name" ∨ k = "title" →
  body !! k = None →
  Missing k ∈ errors_of (validate_Submission body).
Proof.
  intros Hk Hnone. rewrite validate_Submission_errors.
  destruct Hk as [->| ->]; rewrite (required_missing _ _ _ Hnone); set_solver.
Qed.
End Validation.

Section Failures.
Context `{PyBuiltins} `{schemas.Validators} {W : Type} (st : Storage W).

Lemma call_create_document_run (collection_name : string)
    (data : schemas.Submission) (w : world W) :
  call_create_document st collection_name data w
  = ((create_document st collection_name data (store w)).1,
     World (create_document st collection_name data (store w)).2
       (calls w ++ [Call_create_document collection_name data])).
Proof.
  unfold call_create_document.
  by destruct (create_document st collection_name data (store w)).
Qed.

(** C6.  In every handler that touches data, a failure of storage ends
    the request in an HTTP 500 whose detail is the failure's text; the
    combined portfolio does so when either of its two fetches fails,
    and then returns no items at all. *)
Theorem storage_failure_is_500 (limit : Z) (item : schemas.Submission)
    (w : world W) (e : exn) :
  (∀ s' : W,
      get_documents st "project" ∅ limit (store w) = (Raised e, s') →
      (list_projects st limit w).1 = Raised (HTTPException 500 (exn_str e))
      ∧ (combined_portfolio st limit w).1
        = Raised (HTTPException 500 (exn_str e)))
  ∧ (∀ s' : W,
      get_documents st "submission" ∅ limit (store w) = (Raised e, s') →
      (list_submissions st limit w).1
      = Raised (HTTPException 500 (exn_str e)))
  ∧ (∀ (projects : list dict) (s1 s2 : W),
      get_documents st "project" ∅ limit (store w) = (Ok projects, s1) →
      get_documents st "submission" ∅ limit s1 = (Raised e, s2) →
      (combined_portfolio st limit w).1
      = Raised (HTTPException 500 (exn_str e)))
  ∧ (∀ s' : W,
      create_document st "submission" item (store w) = (Raised e, s') →
      (submit_portfolio st item w).1
      = Raised (HTTPException 500 (exn_str e))).
Proof.
  split; [|split; [|split]].
  - intros s' Hget. split.
    + unfold list_projects, try_except, bind.
      rewrite call_get_documents_run, Hget. reflexivity.
    + unfold combined_portfolio, try_except, bind.
      rewrite call_get_documents_run, Hget. reflexivity.
  - intros s' Hget. unfold list_submissions, try_except, bind.
    rewrite call_get_documents_run, Hget. reflexivity.
  - intros projects s1 s2 Hp Hs. unfold combined_portfolio, try_except, bind.
    rewrite call_get_documents_run, Hp. simpl.
    rewrite call_get_documents_run. simpl. rewrite Hs. reflexivity.
  - intros s' Hc. unfold submit_portfolio, try_except, bind.
    rewrite call_create_document_run, Hc. reflexivity.
Qed.

(** C7.  A body that lacks [name] or [title] is refused with a
    validation error that names the missing field, the storage untouched
    and no call made to it; a body that validates to an item, for which
    storage issues a new identifier, makes exactly one storage call, the
    creation of that item in "submission", and returns success with the
    identifier. *)
Theorem submit_validates_before_storage (body : dict) (w : world W) :
  (∀ k : string, k = "name" ∨ k = "title" → body !! k = None →
      ∃ errors : list schemas.field_error,
        post_api_submit st body w = (Raised (RequestValidationError errors), w)
        ∧ schemas.Missing k ∈ errors)
  ∧ (∀ (item : schemas.Submission) (new_id : string) (s' : W),
      schemas.validate_Submission body = inr item →
      create_document st "submission" item (store w) = (Ok new_id, s') →
      post_api_submit st body w
      = (Ok {| success := true; id := new_id |},
         World s' (calls w ++ [Call_create_document "submission" item]))).
Proof.
  split.
  - intros k Hk Hnone.
    pose proof (validate_Submission_missing body k Hk Hnone) as Hin.
    unfold post_api_submit.
    destruct (schemas.validate_Submission body) as [errors|item]; simpl in Hin.
    + by exists errors.
    + by apply elem_of_nil in Hin.
  - intros item new_id s' Hv Hc. unfold post_api_submit. rewrite Hv.
    unfold submit_portfolio, try_except, bind, ret.
    rewrite call_create_document_run, Hc. reflexivity.
Qed.
End Failures.

(* --------------------------------------------------------------------- *)
(* The diagnostic route                                                  *)
(* --------------------------------------------------------------------- *)

Lemma str_take_String (n : nat) (c : ascii) (s : string) :
  str_take n (String c s)
  = if is_continuation c then String c (str_take n s)
    else match n with
         | O => ""
         | S n' => String c (str_take n' s)
         end.
Proof. reflexivity. Qed.

(** A code point's bytes are taken together or not at all. *)
Lemma str_take_code_point (n : nat) (c : N) (s : string) :
  str_take n (encode_code_point c +:+ s)
  = match n with
    | O => ""
    | S n' => encode_code_point c +:+ str_take n' s
    end.
Proof.
  unfold encode_code_point, continuation_byte.
  repeat case_match; simpl String.app; rewrite ?str_take_String; reflexivity.
Qed.

(** Cutting the encoded text at [n] is cutting the code points at [n]. *)
Lemma str_take_utf8_encode (n : nat) (cps : list N) :
  str_take n (utf8_encode cps) = utf8_encode (take n cps).
Proof.
  revert n. induction cps as [|c cps IH]; intros n.
  - by destruct n.
  - change (utf8_encode (c :: cps))
      with (encode_code_point c +:+ utf8_encode cps).
    rewrite str_take_code_point. destruct n as [|n]; [done|].
    simpl take. rewrite IH. reflexivity.
Qed.

(** Runs [test_database] through every way the storage check can go:
    no handle, a handle whose name cannot be read, and a listing that
    answers or raises. *)
Ltac run_test_database st w :=
  unfold test_database, bind, storage_check, try_except, env_check, bind;
  let d := fresh "d" in
  let Hdb := fresh "Hdb" in
  let Hname := fresh "Hname" in
  let Hlist := fresh "Hlist" in
  destruct (db st) as [d|] eqn:Hdb;
  [ unfold set_item at 1; unfold initial_response; simpl;
    unfold hasattr_name, getattr_name;
    destruct (db_name d) as [| |] eqn:Hname; simpl;
    try (unfold in_world, call_list_collection_names;
         destruct (list_collection_names d (store w)) as [[|] ?] eqn:Hlist;
         simpl)
  | simpl ].

Section Diagnostics.
Context {W : Type} (st : Storage W).

(** C8.  The diagnostic handler returns a response with its six fields
    in every state of storage and never raises.  Without a storage
    handle the [database] field says so; a listing that raises is
    reported in that field with the first 50 characters of the error's
    text and no more, and so is a handle whose name cannot be read. *)
Theorem test_database_never_raises (env : gmap string string) (w : world W) :
  ∃ (response : dict) (w' : world W),
    test_database st env w = (Ok response, w')
    ∧ dom response = diagnostic_keys
    ∧ response !! "backend" = Some (VStr "✅ Running")
    ∧ (db st = None →
         response !! "database"
         = Some (VStr "⚠️  Available but not initialized")
         ∧ response !! "connection_status" = Some (VStr "Not Connected")
         ∧ response !! "collections" = Some (VList []))
    ∧ (∀ (d : Database W) (e : exn) (s' : W) (cps : list N),
         db st = Some d →
         (∀ e' : exn, db_name d ≠ AttrRaises e') →
         list_collection_names d (store w) = (Raised e, s') →
         exn_str e = utf8_encode cps →
         response !! "database"
         = Some (VStr ("⚠️  Connected but Error: "
                       +:+ utf8_encode (take 50 cps)))
         ∧ (length (take 50 cps) ≤ 50)%nat)
    ∧ (∀ (d : Database W) (e : exn) (cps : list N),
         db st = Some d →
         db_name d = AttrRaises e →
         exn_str e = utf8_encode cps →
         response !! "database"
         = Some (VStr ("❌ Error: " +:+ utf8_encode (take 50 cps)))
         ∧ (length (take 50 cps) ≤ 50)%nat).
Proof.
  run_test_database st w;
    (eexists _, _; split; [reflexivity|];
     split; [reflexivity|]; split; [reflexivity|];
     split; [intros; by simplify_eq|]; split).
  all: try (intros d' e' s'' cps [= <-] Hne Hl Hcps; try congruence;
            try (by destruct (Hne _ eq_refl));
            assert (e' = e) as -> by congruence;
            rewrite Hcps, str_take_utf8_encode;
            split; [reflexivity|rewrite length_take; lia]).
  all: try (intros d' e' cps [= <-] Hn Hcps; try congruence;
            assert (e' = e) as -> by congruence;
            rewrite Hcps, str_take_utf8_encode;
            split; [reflexivity|rewrite length_take; lia]).
  all: try (intros; congruence).
Qed.

Lemma test_database_env_fields (env : gmap string string) (w : world W) :
  ∃ (response : dict) (w' : world W),
    test_database st env w = (Ok response, w')
    ∧ response !! "database_url"
      = Some (VStr (if getenv_truthy env "DATABASE_URL"
                    then "✅ Set" else "❌ Not Set"))
    ∧ response !! "database_name"
      = Some (VStr (if getenv_truthy env "DATABASE_NAME"
                    then "✅ Set" else "❌ Not Set")).
Proof.
  run_test_database st w;
    (eexists _, _; split; [reflexivity|]; split; reflexivity).
Qed.
End Diagnostics.

(** C10, as amended.  The final [database_url] and [database_name] fields
    say whether DATABASE_URL and DATABASE_NAME are set to a non-empty
    value, and nothing else: two runs, over any two storages in any two
    states, whose environments agree on that give the same two fields. *)
Theorem env_fields_depend_on_env_only {W1 W2 : Type}
    (st1 : Storage W1) (st2 : Storage W2)
    (env1 env2 : gmap string string) (w1 : world W1) (w2 : world W2) :
  getenv_truthy env1 "DATABASE_URL" = getenv_truthy env2 "DATABASE_URL" →
  getenv_truthy env1 "DATABASE_NAME" = getenv_truthy env2 "DATABASE_NAME" →
  ∃ (r1 r2 : dict) (w1' : world W1) (w2' : world W2),
    test_database st1 env1 w1 = (Ok r1, w1')
    ∧ test_database st2 env2 w2 = (Ok r2, w2')
    ∧ r1 !! "database_url" = r2 !! "database_url"
    ∧ r1 !! "database_name" = r2 !! "database_name"
    ∧ r1 !! "database_url"
      = Some (VStr (if getenv_truthy env1 "DATABASE_URL"
                    then "✅ Set" else "❌ Not Set"))
    ∧ r1 !! "database_name"
      = Some (VStr (if getenv_truthy env1 "DATABASE_NAME"
                    then "✅ Set" else "❌ Not Set")).
Proof.
  intros Hurl Hname.
  destruct (test_database_env_fields st1 env1 w1) as (r1 & w1' & Hr1 & Hu1 & Hn1).
  destruct (test_database_env_fields st2 env2 w2) as (r2 & w2' & Hr2 & Hu2 & Hn2).
  exists r1, r2, w1', w2'.
  rewrite Hu1, Hn1, Hu2, Hn2, Hurl, Hname. done.
Qed.

(* --------------------------------------------------------------------- *)
(* More on serialization                                                 *)
(* --------------------------------------------------------------------- *)

Section SerializeMore.
Context `{PyBuiltins}.

(** X1.  Serializing a serialized record changes nothing. *)
Theorem serialize_idempotent (doc : dict) :
  _serialize (Some (_serialize (Some doc))) = _serialize (Some doc).
Proof.
  apply map_eq. intros k.
  rewrite (serialize_lookup (_serialize (Some doc)) k).
  unfold serialized_field at 1. rewrite !serialize_lookup.
  change (serialized_field doc "_id") with (@None value).
  repeat case_decide; try done.
  - by subst k.
  - by subst k.
  - unfold serialized_field. rewrite !decide_False by done.
    rewrite decide_True by done.
    destruct (doc !! k) as [v|]; simpl; [|done].
    by rewrite coerce_datetime_idem.
Qed.

(** X2.  The serialized record has the fields of the raw one without
    [_id], and [id] besides when the raw [_id] is not null. *)
Theorem serialize_dom (doc : dict) :
  dom (_serialize (Some doc))
  = (dom doc ∖ {["_id"]})
    ∪ (if is_None (dict_get doc "_id") then ∅ else {["id"]}).
Proof.
  apply set_eq. intros k.
  rewrite elem_of_union, elem_of_difference, !elem_of_dom, serialize_lookup.
  rewrite not_elem_of_singleton.
  unfold serialized_field, dict_get.
  destruct (decide (k = "_id")) as [->|Hk].
  - split; [by intros [? ?]|]. intros [[_ ?]|Hin]; [done|].
    destruct (is_None (default VNone (doc !! "_id")));
      [by apply not_elem_of_empty in Hin|].
    by apply elem_of_singleton in Hin.
  - destruct (decide (k = "id")) as [->|Hk'].
    + destruct (doc !! "_id") as [v|]; simpl.
      * destruct (is_None v).
        -- split; [by left|]. intros [[? _]|Hin]; [done|].
           by apply not_elem_of_empty in Hin.
        -- split; [right; by apply elem_of_singleton|by eexists].
      * split; [by left|]. intros [[? _]|Hin]; [done|].
        by apply not_elem_of_empty in Hin.
    + assert (k ∉ (if is_None (default VNone (doc !! "_id"))
                   then (∅ : gset string) else {["id"]})) as Hnot.
      { destruct (is_None _); [apply not_elem_of_empty|].
        by apply not_elem_of_singleton. }
      case_decide; rewrite ?fmap_is_Some; naive_solver.
Qed.

(** X3.  After serialization neither [created_at] nor [updated_at] holds
    a date/time object. *)
Theorem serialize_timestamps_not_datetime (doc : dict) (t : datetime) :
  _serialize (Some doc) !! "created_at" ≠ Some (VDatetime t)
  ∧ _serialize (Some doc) !! "updated_at" ≠ Some (VDatetime t).
Proof.
  rewrite !serialize_lookup. unfold serialized_field. simpl.
  split.
  - destruct (doc !! "created_at") as [[]|]; simpl; discriminate.
  - destruct (doc !! "updated_at") as [[]|]; simpl; discriminate.
Qed.
End SerializeMore.

(* --------------------------------------------------------------------- *)
(* More on the combined portfolio                                        *)
(* --------------------------------------------------------------------- *)

Lemma slice_to_prefix {A : Type} (n : Z) (l : list A) : slice_to n l `prefix_of` l.
Proof. unfold slice_to. case_bool_decide; apply prefix_take. Qed.

Lemma slice_to_length {A : Type} (n : Z) (l : list A) :
  Z.of_nat (length (slice_to n l))
  = if bool_decide (0 ≤ n) then Z.min n (Z.of_nat (length l))
    else Z.max 0 (Z.of_nat (length l) + n).
Proof.
  unfold slice_to. case_bool_decide; rewrite length_take; lia.
Qed.

Lemma Forall_slice_to {A : Type} (P : A → Prop) (n : Z) (l : list A) :
  Forall P l → Forall P (slice_to n l).
Proof.
  intros Hl. destruct (slice_to_prefix n l) as [k Hk].
  rewrite Hk in Hl. by apply Forall_app in Hl as [? _].
Qed.

Section PortfolioMore.
Context `{PyBuiltins}.

(** X4.  An item's [id] is the record's storage identifier as a string,
    whatever [id] field the record has of its own. *)
Theorem normalize_id_from_identifier (r : dict) (v : value) :
  r !! "_id" = Some v → v ≠ VNone →
  normalize_project r !! "id" = Some (VStr (py_str v))
  ∧ normalize_submission r !! "id" = Some (VStr (py_str v)).
Proof.
  intros Hid Hv.
  rewrite normalize_project_eq, normalize_submission_eq, serialize_get_id, Hid.
  by destruct v.
Qed.

(** X5.  A record without a storage identifier (none, or null) keeps its
    own [id] field as the item's [id]. *)
Theorem normalize_id_fallback (r : dict) :
  dict_get r "_id" = VNone →
  normalize_project r !! "id" = Some (dict_get r "id")
  ∧ normalize_submission r !! "id" = Some (dict_get r "id").
Proof.
  intros Hid. unfold dict_get in Hid.
  rewrite normalize_project_eq, normalize_submission_eq, serialize_get_id.
  destruct (r !! "_id") as [v|]; simpl in Hid; [subst v|]; done.
Qed.

(** X6.  A [tags] field that is present is copied as it is, null
    included: the empty-list default is for an absent key only. *)
Theorem normalize_tags_present (r : dict) (v : value) :
  r !! "tags" = Some v →
  normalize_project r !! "tags" = Some v
  ∧ normalize_submission r !! "tags" = Some v.
Proof.
  intros Ht. rewrite normalize_project_eq, normalize_submission_eq.
  unfold dict_get_default. rewrite Ht. done.
Qed.

Lemma sort_key_normalize_project (r : dict) :
  sort_key (normalize_project r) = VStr "".
Proof. by rewrite normalize_project_eq. Qed.

Lemma sort_key_normalize_submission (r : dict) :
  sort_key (normalize_submission r) = VStr "".
Proof. by rewrite normalize_submission_eq. Qed.

Lemma portfolio_items_slice (projects submissions : list dict) (limit : Z) :
  portfolio_items projects submissions limit
  = slice_to limit
      (reverse (normalize_submission <$> submissions)
       ++ reverse (normalize_project <$> projects)).
Proof. unfold portfolio_items. simpl. by rewrite reverse_app. Qed.

(** X7.  The sort key that [combined_portfolio] defines and never calls
    is the empty string on every item the handler builds, for any limit:
    the items carry no timestamp to sort on. *)
Theorem sort_key_constant_on_portfolio (projects submissions : list dict)
    (limit : Z) :
  Forall (λ item, sort_key item = VStr "")
    (portfolio_items projects submissions limit).
Proof.
  rewrite portfolio_items_slice. apply Forall_slice_to, Forall_app.
  split; apply Forall_reverse, Forall_fmap, Forall_forall; intros r _; simpl.
  - apply sort_key_normalize_submission.
  - apply sort_key_normalize_project.
Qed.

Lemma normalize_submission_type (r : dict) :
  normalize_submission r !! "type" = Some (VStr "submission").
Proof. by rewrite normalize_submission_eq. Qed.

Lemma normalize_project_type (r : dict) :
  normalize_project r !! "type" = Some (VStr "project").
Proof. by rewrite normalize_project_eq. Qed.

(** X8.  In the output every submission comes before every project,
    for any limit: a project item never sits at an earlier position than
    a submission item. *)
Theorem portfolio_submissions_first (projects submissions : list dict)
    (limit : Z) (i j : nat) (a b : dict) :
  portfolio_items projects submissions limit !! i = Some a →
  portfolio_items projects submissions limit !! j = Some b →
  a !! "type" = Some (VStr "project") →
  b !! "type" = Some (VStr "submission") →
  (j < i)%nat.
Proof.
  rewrite portfolio_items_slice. intros Ha Hb Hta Htb.
  destruct (slice_to_prefix limit
              (reverse (normalize_submission <$> submissions)
               ++ reverse (normalize_project <$> projects))) as [rest Hrest].
  set (S' := reverse (normalize_submission <$> submissions)) in *.
  set (P' := reverse (normalize_project <$> projects)) in *.
  assert ((S' ++ P') !! i = Some a) as Ha'.
  { rewrite Hrest. by apply lookup_app_l_Some. }
  assert ((S' ++ P') !! j = Some b) as Hb'.
  { rewrite Hrest. by apply lookup_app_l_Some. }
  assert (length S' ≤ i)%nat as Hi.
  { destruct (decide (i < length S')%nat) as [Hlt|]; [|lia].
    rewrite lookup_app_l in Ha' by done.
    apply list_elem_of_lookup_2, elem_of_reverse, list_elem_of_fmap in Ha'
      as (r & -> & _).
    rewrite normalize_submission_type in Hta. discriminate. }
  assert (j < length S')%nat as Hj.
  { destruct (decide (j < length S')%nat) as [|Hge]; [done|].
    rewrite lookup_app_r in Hb' by lia.
    apply list_elem_of_lookup_2, elem_of_reverse, list_elem_of_fmap in Hb'
      as (r & -> & _).
    rewrite normalize_project_type in Htb. discriminate. }
  lia.
Qed.

(** X9.  When at least [limit] submissions were fetched the output holds
    submissions only, the last [limit] fetched, newest fetched first; no
    project is shown. *)
Theorem portfolio_projects_starved (projects submissions : list dict)
    (limit : Z) :
  0 ≤ limit → limit ≤ Z.of_nat (length submissions) →
  portfolio_items projects submissions limit
  = take (Z.to_nat limit) (reverse (normalize_submission <$> submissions)).
Proof.
  intros H0 Hlen. rewrite portfolio_items_slice, slice_to_nonneg by done.
  apply take_app_le. rewrite length_reverse, length_fmap. lia.
Qed.

(** X10.  The number of items returned, for any integer limit: the
    smaller of limit and what was fetched when limit is not negative,
    and what was fetched less [-limit] (not below zero) when it is. *)
Theorem portfolio_length (projects submissions : list dict) (limit : Z) :
  Z.of_nat (length (portfolio_items projects submissions limit))
  = if bool_decide (0 ≤ limit)
    then Z.min limit (Z.of_nat (length projects + length submissions))
    else Z.max 0 (Z.of_nat (length projects + length submissions) + limit).
Proof.
  rewrite portfolio_items_slice, slice_to_length.
  rewrite length_app, !length_reverse, !length_fmap.
  case_bool_decide; lia.
Qed.

(** X11.  Every item returned has exactly the nine item keys and is
    tagged "project" or "submission", for any limit. *)
Theorem portfolio_items_shape (projects submissions : list dict) (limit : Z) :
  Forall (λ item, dom item = item_keys
                  ∧ (item !! "type" = Some (VStr "project")
                     ∨ item !! "type" = Some (VStr "submission")))
    (portfolio_items projects submissions limit).
Proof.
  rewrite portfolio_items_slice. apply Forall_slice_to, Forall_app.
  split; apply Forall_reverse, Forall_fmap, Forall_forall; intros r _; simpl.
  - rewrite normalize_submission_eq. split; [done|by right].
  - rewrite normalize_project_eq. split; [done|by left].
Qed.
End PortfolioMore.

(* --------------------------------------------------------------------- *)
(* What the handlers ask of storage                                      *)
(* --------------------------------------------------------------------- *)

Section StorageCalls.
Context `{PyBuiltins} {W : Type} (st : Storage W).

(** X12.  A list handler makes exactly one storage call, whether it
    succeeds or fails: a fetch from its own collection with the empty
    filter and the caller's limit passed on unchanged; the storage is
    left as that fetch left it. *)
Theorem list_handlers_one_call (limit : Z) (w : world W) :
  (list_projects st limit w).2
  = World (get_documents st "project" ∅ limit (store w)).2
      (calls w ++ [Call_get_documents "project" ∅ limit])
  ∧ (list_submissions st limit w).2
    = World (get_documents st "submission" ∅ limit (store w)).2
        (calls w ++ [Call_get_documents "submission" ∅ limit]).
Proof.
  split.
  - unfold list_projects, try_except, bind, ret, raise_500, raise.
    rewrite call_get_documents_run.
    by destruct (get_documents st "project" ∅ limit (store w)) as [[?|?] ?].
  - unfold list_submissions, try_except, bind, ret, raise_500, raise.
    rewrite call_get_documents_run.
    by destruct (get_documents st "submission" ∅ limit (store w)) as [[?|?] ?].
Qed.

(** X13.  When the project fetch succeeds the combined portfolio makes
    two storage calls in this order, projects then submissions, both
    with the empty filter and the same limit, the second against the
    storage as the first left it. *)
Theorem combined_portfolio_two_calls (limit : Z) (w : world W)
    (projects : list dict) (s1 : W) :
  get_documents st "project" ∅ limit (store w) = (Ok projects, s1) →
  (combined_portfolio st limit w).2
  = World (get_documents st "submission" ∅ limit s1).2
      (calls w ++ [Call_get_documents "project" ∅ limit;
                   Call_get_documents "submission" ∅ limit]).
Proof.
  intros Hp. unfold combined_portfolio, try_except, bind, ret, raise_500, raise.
  rewrite call_get_documents_run, Hp. simpl.
  rewrite call_get_documents_run. simpl.
  destruct (get_documents st "submission" ∅ limit s1) as [[?|?] ?]; simpl;
    by rewrite <- (assoc_L (++)).
Qed.

(** X14.  When the project fetch fails the combined portfolio stops
    there: the submissions are never asked for. *)
Theorem combined_portfolio_stops_at_first_failure (limit : Z) (w : world W)
    (e : exn) (s1 : W) :
  get_documents st "project" ∅ limit (store w) = (Raised e, s1) →
  combined_portfolio st limit w
  = (Raised (HTTPException 500 (exn_str e)),
     World s1 (calls w ++ [Call_get_documents "project" ∅ limit])).
Proof.
  intros Hp. unfold combined_portfolio, try_except, bind, raise_500, raise.
  by rewrite call_get_documents_run, Hp.
Qed.

(** X15.  The submit handler makes exactly one storage call, the
    creation of the given item in "submission", whether it succeeds or
    fails: a failed creation is not tried again. *)
Theorem submit_portfolio_one_call (item : schemas.Submission) (w : world W) :
  (submit_portfolio st item w).2
  = World (create_document st "submission" item (store w)).2
      (calls w ++ [Call_create_document "submission" item]).
Proof.
  unfold submit_portfolio, try_except, bind, ret, raise_500, raise.
  rewrite call_create_document_run.
  by destruct (create_document st "submission" item (store w)) as [[?|?] ?].
Qed.
End StorageCalls.

(* --------------------------------------------------------------------- *)
(* More on the diagnostic route                                          *)
(* --------------------------------------------------------------------- *)

Section DiagnosticsMore.
Context {W : Type} (st : Storage W).

(** X16.  The diagnostic handler never fetches or creates documents: it
    makes no storage call without a handle or when the handle's name
    cannot be read, and otherwise exactly one, the collection listing. *)
Theorem test_database_calls (env : gmap string string) (w : world W) :
  calls (test_database st env w).2
  = calls w
    ++ match db st with
       | Some d =>
           match db_name d with
           | AttrRaises _ => []
           | _ => [Call_list_collection_names]
           end
       | None => []
       end.
Proof.
  run_test_database st w; simpl; by rewrite ?app_nil_r.
Qed.

(** X17.  The initial value of the [database] field is always
    overwritten: no response reports "Not Available". *)
Theorem test_database_initial_status_dead (env : gmap string string)
    (w : world W) (response : dict) :
  (test_database st env w).1 = Ok response →
  response !! "database" ≠ Some (VStr "❌ Not Available").
Proof.
  run_test_database st w; intros [= <-]; discriminate.
Qed.

(** X18.  When the handle's name can be read and the listing answers,
    the response reports a working connection and the first ten
    collection names, in the listing's order. *)
Theorem test_database_listing_ok (env : gmap string string) (w : world W)
    (d : Database W) (names : list string) (s' : W) (response : dict) :
  db st = Some d →
  (∀ e : exn, db_name d ≠ AttrRaises e) →
  list_collection_names d (store w) = (Ok names, s') →
  (test_database st env w).1 = Ok response →
  response !! "database" = Some (VStr "✅ Connected & Working")
  ∧ response !! "connection_status" = Some (VStr "Connected")
  ∧ response !! "collections" = Some (VList (VStr <$> take 10 names)).
Proof.
  intros Hd Hname Hlist.
  run_test_database st w; intros [= <-]; simplify_eq;
    try (by destruct (Hname _ eq_refl)); try congruence.
  all: match goal with
       | |- context [slice_to 10 ?l] =>
           assert (names = l) as -> by congruence
       end; done.
Qed.

(** X19.  When reading the handle's name raises, the listing is not
    attempted and storage is untouched: the response reports the first
    50 characters of the error's text, the connection status stays
    "Not Connected" and no collection is listed. *)
Theorem test_database_name_raises (env : gmap string string) (w : world W)
    (d : Database W) (e : exn) (cps : list N) :
  db st = Some d →
  db_name d = AttrRaises e →
  exn_str e = utf8_encode cps →
  ∃ response : dict,
    test_database st env w = (Ok response, w)
    ∧ response !! "database"
      = Some (VStr ("❌ Error: " +:+ utf8_encode (take 50 cps)))
    ∧ response !! "connection_status" = Some (VStr "Not Connected")
    ∧ response !! "collections" = Some (VList []).
Proof.
  intros Hd Hname Hcps.
  run_test_database st w; simplify_eq; try congruence.
  all: match goal with
       | |- context [exn_str ?e0] => assert (e0 = e) as -> by congruence
       end.
  all: rewrite Hcps, str_take_utf8_encode.
  all: eexists; split; [reflexivity|done].
Qed.
End DiagnosticsMore.

(* --------------------------------------------------------------------- *)
(* More on the schemas                                                   *)
(* --------------------------------------------------------------------- *)

Section SchemasMore.
Import schemas.

Lemma ap_inr {A B : Type} (f : checked (A → B)) (x : checked A) (b : B) :
  ap f x = inr b → ∃ (g : A → B) (a : A), f = inr g ∧ x = inr a ∧ b = g a.
Proof. destruct f, x; simpl; intros [= <-]; eauto. Qed.

Lemma check_inr {A : Type} (k : string) (v : value → option A) (x : value) (a : A) :
  check k v x = inr a → v x = Some a.
Proof. unfold check. by destruct (v x); intros [= <-]. Qed.

Lemma required_inr {A : Type} (body : dict) (k : string)
    (v : value → option A) (a : A) :
  required body k v = inr a → ∃ x : value, body !! k = Some x ∧ v x = Some a.
Proof.
  unfold required. destruct (body !! k) as [x|]; [|done].
  intros Hc%check_inr. eauto.
Qed.

Lemma optional_inr_Some {A : Type} (body : dict) (k : string)
    (v : value → option A) (a : A) :
  optional body k v = inr (Some a) →
  ∃ x : value, body !! k = Some x ∧ v x = Some a.
Proof.
  unfold optional. destruct (body !! k) as [x|]; [|done].
  destruct x; try done; intros Hc%check_inr;
    (destruct (v _) as [a'|] eqn:Hv; simpl in Hc; [|done]);
    injection Hc as ->; eauto.
Qed.

Lemma ge_le_bounds (lo hi : Z) (v : value → option Z) (x : value) (n : Z) :
  ge_le lo hi v x = Some n → lo ≤ n ∧ n ≤ hi.
Proof.
  unfold ge_le. destruct (v x) as [m|]; [|done].
  case_bool_decide; [|done]. by intros [= <-].
Qed.

Lemma errors_of_required_loc {A : Type} (body : dict) (k : string)
    (v : value → option A) :
  error_loc <$> errors_of (required body k v) `sublist_of` [k].
Proof.
  unfold required, check. destruct (body !! k) as [x|]; simpl; [|done].
  destruct (v x); simpl; [apply sublist_nil_l|done].
Qed.

Lemma errors_of_optional_loc {A : Type} (body : dict) (k : string)
    (v : value → option A) :
  error_loc <$> errors_of (optional body k v) `sublist_of` [k].
Proof.
  unfold optional, check.
  destruct (body !! k) as [x|]; simpl; [|apply sublist_nil_l].
  destruct x; simpl; try apply sublist_nil_l;
    (destruct (v _); simpl; [apply sublist_nil_l|done]).
Qed.

Lemma errors_of_check_items {A : Type} (k : string) (v : value → option A)
    (i : nat) (xs : list value) (err : field_error) :
  err ∈ errors_of (check_items k v i xs)
  ↔ ∃ (j : nat) (x : value),
      err = InvalidItem k (i + j) ∧ xs !! j = Some x ∧ v x = None.
Proof.
  revert i. induction xs as [|x xs IH]; intros i; simpl.
  - split; [by intros ?%elem_of_nil|]. by intros (j & y & _ & ? & _).
  - rewrite !ap_errors, elem_of_app, IH. simpl. split.
    + intros [Hx|(j & y & -> & Hj & Hy)].
      * destruct (v x) eqn:Hv; simpl in Hx; [by apply elem_of_nil in Hx|].
        apply list_elem_of_singleton in Hx as ->.
        exists 0%nat, x. by rewrite Nat.add_0_r.
      * exists (S j), y. by rewrite Nat.add_succ_r.
    + intros ([|j] & y & -> & Hj & Hy); simpl in Hj.
      * injection Hj as ->. left. rewrite Hy, Nat.add_0_r. simpl.
        by apply list_elem_of_singleton.
      * right. exists j, y. by rewrite Nat.add_succ_r.
Qed.

Lemma errors_of_defaulted_list_loc {A : Type} (body : dict) (k : string)
    (v : value → option A) :
  Forall (λ err, error_loc err = k) (errors_of (defaulted_list body k v)).
Proof.
  unfold defaulted_list, check_list.
  destruct (body !! k) as [x|]; simpl; [|done].
  destruct x; simpl; try by repeat constructor.
  apply Forall_forall. intros err (j & y & -> & _)%errors_of_check_items.
  reflexivity.
Qed.

Lemma errors_of_required_no_item {A : Type} (body : dict) (k k' : string)
    (v : value → option A) (i : nat) :
  InvalidItem k' i ∉ errors_of (required body k v).
Proof.
  unfold required, check. destruct (body !! k) as [x|]; simpl.
  - destruct (v x); simpl; [apply not_elem_of_nil|].
    by intros ?%list_elem_of_singleton.
  - by intros ?%list_elem_of_singleton.
Qed.

Lemma errors_of_optional_no_item {A : Type} (body : dict) (k k' : string)
    (v : value → option A) (i : nat) :
  InvalidItem k' i ∉ errors_of (optional body k v).
Proof.
  unfold optional, check.
  destruct (body !! k) as [x|]; simpl; [|apply not_elem_of_nil].
  destruct x; simpl; try apply not_elem_of_nil;
    (destruct (v _); simpl;
     [apply not_elem_of_nil|by intros ?%list_elem_of_singleton]).
Qed.

Context `{Validators} `{ScalarValidators}.

(** X20.  Keys of the body that the Submission model does not declare
    have no effect on validation. *)
Theorem validate_Submission_ignores_extra (body : dict) :
  validate_Submission body
  = validate_Submission (restrict Submission_fields body).
Proof.
  unfold validate_Submission, required, optional, defaulted_list.
  rewrite !(restrict_lookup Submission_fields)
    by (unfold Submission_fields; set_solver).
  reflexivity.
Qed.

(** X21.  For the optional fields of a Submission an explicit null is
    the same as leaving the field out. *)
Theorem validate_Submission_null_is_absent (body : dict) (k : string) :
  k ∈ ["description"; "link"; "thumbnail"] →
  validate_Submission (<[k := VNone]> body)
  = validate_Submission (delete k body).
Proof.
  intros Hk. unfold validate_Submission, required, optional, defaulted_list.
  repeat (apply elem_of_cons in Hk as [->|Hk];
          [by simplify_map_eq|]).
  by apply elem_of_nil in Hk.
Qed.

(** X22.  A validated Submission always has a name and a title, and
    they are what the string validator made of the body's [name] and
    [title]. *)
Theorem validate_Submission_inr (body : dict) (item : Submission) :
  validate_Submission body = inr item →
  ∃ n t : value,
    body !! "name" = Some n ∧ validate_str n = Some (name item)
    ∧ body !! "title" = Some t ∧ validate_str t = Some (title item).
Proof.
  unfold validate_Submission. intros Hv.
  apply ap_inr in Hv as (g6 & tg & Hv & _ & ->).
  apply ap_inr in Hv as (g5 & th & Hv & _ & ->).
  apply ap_inr in Hv as (g4 & l & Hv & _ & ->).
  apply ap_inr in Hv as (g3 & d & Hv & _ & ->).
  apply ap_inr in Hv as (g2 & t & Hv & Ht & ->).
  apply ap_inr in Hv as (g1 & n & Hv & Hn & ->).
  injection Hv as <-. simpl.
  apply required_inr in Hn as (xn & ? & ?).
  apply required_inr in Ht as (xt & ? & ?).
  by exists xn, xt.
Qed.

(** X23.  A body with just a name and a title that the string validator
    accepts is a valid Submission: description, link and thumbnail are
    null and tags is the empty list. *)
Theorem validate_Submission_defaults (body : dict) (n t : value) (a b : string) :
  body !! "name" = Some n → validate_str n = Some a →
  body !! "title" = Some t → validate_str t = Some b →
  body !! "description" = None → body !! "link" = None →
  body !! "thumbnail" = None → body !! "tags" = None →
  validate_Submission body = inr (Build_Submission a b None None None []).
Proof.
  intros Hn Ha Ht Hb Hd Hl Hth Htg.
  unfold validate_Submission, required, optional, defaulted_list, check.
  by rewrite Hn, Ha, Ht, Hb, Hd, Hl, Hth, Htg.
Qed.

(** X24.  The errors of a rejected Submission come in the order the
    fields are declared, at most one for each of name, title,
    description, link and thumbnail, and then those of tags; a tags list
    is checked element by element, and an element is reported, at its
    index, exactly when the string validator rejects it. *)
Theorem validate_Submission_error_locs (body : dict) :
  (∃ scalar items : list field_error,
      errors_of (validate_Submission body) = scalar ++ items
      ∧ error_loc <$> scalar
        `sublist_of` ["name"; "title"; "description"; "link"; "thumbnail"]
      ∧ Forall (λ err, error_loc err = "tags") items)
  ∧ (∀ (xs : list value) (i : nat),
       body !! "tags" = Some (VList xs) →
       InvalidItem "tags" i ∈ errors_of (validate_Submission body)
       ↔ ∃ x : value, xs !! i = Some x ∧ validate_str x = None).
Proof.
  rewrite validate_Submission_errors. split.
  - exists (errors_of (required body "name" validate_str)
            ++ errors_of (required body "title" validate_str)
            ++ errors_of (optional body "description" validate_str)
            ++ errors_of (optional body "link" validate_HttpUrl)
            ++ errors_of (optional body "thumbnail" validate_HttpUrl)),
           (errors_of (defaulted_list body "tags" validate_str)).
    split; [by rewrite <- !(assoc_L (++))|].
    split; [|apply errors_of_defaulted_list_loc].
    rewrite !fmap_app.
    change ["name"; "title"; "description"; "link"; "thumbnail"]
      with (["name"] ++ ["title"] ++ ["description"] ++ ["link"]
            ++ ["thumbnail"]).
    repeat apply sublist_app;
      first [apply errors_of_required_loc | apply errors_of_optional_loc].
  - intros xs i Htags. rewrite !elem_of_app.
    unfold defaulted_list at 1. rewrite Htags. simpl.
    rewrite errors_of_check_items. split.
    + intros [Hin|[Hin|[Hin|[Hin|[Hin|Hin]]]]];
        try (by apply errors_of_required_no_item in Hin);
        try (by apply errors_of_optional_no_item in Hin).
      destruct Hin as (j & x & [= <-] & Hj & Hx). eauto.
    + intros (x & Hx & Hv). do 5 right. by exists i, x.
Qed.

(** X25.  A Project needs a title and nothing else: without one the body
    is rejected with the title reported missing, and a body with just a
    title the string validator accepts is valid, every optional field
    null and tags empty. *)
Theorem validate_Project_title_only (body : dict) :
  (body !! "title" = None →
     ∃ errors : list field_error,
       validate_Project body = inl errors ∧ Missing "title" ∈ errors)
  ∧ (∀ (t : value) (a : string),
       body !! "title" = Some t → validate_str t = Some a →
       body !! "description" = None → body !! "image_url" = None →
       body !! "demo_url" = None → body !! "source_url" = None →
       body !! "author" = None → body !! "tags" = None →
       validate_Project body
       = inr (Build_Project a None None None None None [])).
Proof.
  split.
  - intros Ht.
    assert (Missing "title" ∈ errors_of (validate_Project body)) as Hin.
    { unfold validate_Project. rewrite !ap_errors.
      rewrite (required_missing _ _ _ Ht). set_solver. }
    destruct (validate_Project body) as [errors|p]; simpl in Hin.
    + by exists errors.
    + by apply elem_of_nil in Hin.
  - intros t a Ht Ha Hd Hi Hdm Hs Hau Htg.
    unfold validate_Project, required, optional, defaulted_list, check.
    by rewrite Ht, Ha, Hd, Hi, Hdm, Hs, Hau, Htg.
Qed.

(** X26.  A validated User's age is null or between 0 and 120, and
    [is_active] is true when the body leaves it out. *)
Theorem validate_User_inr (body : dict) (u : User) :
  validate_User body = inr u →
  match age u with Some n => 0 ≤ n ∧ n ≤ 120 | None => True end
  ∧ (body !! "is_active" = None → is_active u = true).
Proof.
  unfold validate_User. intros Hv.
  apply ap_inr in Hv as (g5 & act & Hv & Hact & ->).
  apply ap_inr in Hv as (g4 & ag & Hv & Hage & ->).
  apply ap_inr in Hv as (g3 & ad & Hv & _ & ->).
  apply ap_inr in Hv as (g2 & em & Hv & _ & ->).
  apply ap_inr in Hv as (g1 & nm & Hv & _ & ->).
  injection Hv as <-. simpl. split.
  - destruct ag as [n|]; [|done].
    apply optional_inr_Some in Hage as (x & _ & Hx).
    by apply ge_le_bounds in Hx.
  - intros Hnone. unfold defaulted in Hact. rewrite Hnone in Hact.
    by injection Hact as <-.
Qed.
End SchemasMore.
(* --------------------------------------------------------------------- *)
(* The statements on the sample records and the sample storage           *)
(* --------------------------------------------------------------------- *)

#[local] Existing Instance sample_builtins.
#[local] Existing Instance sample_validators.

Example serialize_docP :
  map_to_list (_serialize (Some docP))
  = [ ("created_at", VStr "2024-01-02T03:04:05");
      ("image_url", VStr "http://i/p.png"); ("id", VStr "65a1");
      ("author", VStr "ann"); ("title", VStr "P") ].
Proof. vm_compute. reflexivity. Qed.

Example serialize_two_ids :
  _serialize (Some doc_two_ids) = {[ "id" := VStr "65a1" ]}.
Proof. vm_compute. reflexivity. Qed.

Example portfolio_two :
  portfolio_items [docP] [docS] 2 = [normalize_submission docS; normalize_project docP].
Proof. reflexivity. Qed.

Example portfolio_cut :
  portfolio_items [docP] [docS] 1 = [normalize_submission docS].
Proof. reflexivity. Qed.

Lemma combined_portfolio_reversal_witness :
  0 ≤ 2
  ∧ ∃ (its : list dict) (w' : world sample_store),
      combined_portfolio (sample_storage None) 2 (world0 []) = (Ok {| items := its |}, w')
      ∧ its = take 2 (reverse ((normalize_project <$> [doc_due])
                               ++ (normalize_submission <$> [docS])))
      ∧ Z.of_nat (length its) ≤ 2.
Proof.
  split; [lia|].
  apply (combined_portfolio_reversal (sample_storage None) 2 (world0 [])
           [doc_due] [docS] (store (world0 [])) (store (world0 [])));
    [lia|reflexivity|reflexivity].
Defined.

(** C1 as stated fails for a negative limit: with one project and one
    submission in storage and limit -1 the handler returns one item. *)
Lemma combined_portfolio_negative_limit_counterexample :
  (combined_portfolio (sample_storage None) (-1) (world0 [])).1
  = Ok {| items := [normalize_submission docS] |}
  ∧ ¬ (∀ its : list dict,
         (combined_portfolio (sample_storage None) (-1) (world0 [])).1
         = Ok {| items := its |} →
         its = take (Z.to_nat (-1))
                 (reverse ((normalize_project <$> [doc_due])
                           ++ (normalize_submission <$> [docS])))
         ∧ Z.of_nat (length its) ≤ -1).
Proof.
  assert ((combined_portfolio (sample_storage None) (-1) (world0 [])).1
          = Ok {| items := [normalize_submission docS] |}) as Hrun
    by (vm_compute; reflexivity).
  split; [exact Hrun|].
  intros Hall. destruct (Hall _ Hrun) as [_ Hlen]. simpl in Hlen. lia.
Qed.

Lemma serialize_coerces_timestamp_fields_witness :
  "created_at" ≠ "_id"
  ∧ docP !! "created_at" = Some (VDatetime t0)
  ∧ _serialize (Some docP) !! "created_at" = Some (VStr "2024-01-02T03:04:05").
Proof.
  split; [discriminate|]. split; [reflexivity|].
  rewrite (serialize_coerces_timestamp_fields docP "created_at" (VDatetime t0));
    [reflexivity|discriminate|discriminate|reflexivity].
Defined.

(** C2 as stated fails: a date/time under a field name other than
    created_at and updated_at is returned as it is, not as a string. *)
Lemma serialize_other_datetime_counterexample :
  doc_due !! "due" = Some (VDatetime t0)
  ∧ _serialize (Some doc_due) !! "due" = Some (VDatetime t0)
  ∧ ¬ (∀ (doc : dict) (k : string) (t : datetime),
         doc !! k = Some (VDatetime t) →
         ∃ s : string, _serialize (Some doc) !! k = Some (VStr s)).
Proof.
  assert (_serialize (Some doc_due) !! "due" = Some (VDatetime t0)) as Hrun
    by (vm_compute; reflexivity).
  split; [reflexivity|]. split; [exact Hrun|].
  intros Hall. destruct (Hall doc_due "due" t0 eq_refl) as [s Hs].
  rewrite Hrun in Hs. discriminate.
Qed.

Lemma serialize_identifier_contract_witness :
  docP !! "_id" = Some (VObjectId "65a1")
  ∧ VObjectId "65a1" ≠ VNone
  ∧ ("_id" ∉ dom (_serialize (Some docP)))
  ∧ _serialize (Some docP) !! "id" = Some (VStr "65a1").
Proof.
  split; [reflexivity|]. split; [discriminate|].
  exact (proj1 serialize_identifier_contract docP (VObjectId "65a1")
           eq_refl ltac:(discriminate)).
Defined.

Lemma normalize_total_nine_keys_witness :
  docS !! "tags" = None
  ∧ docS !! "description" = None
  ∧ normalize_submission docS !! "tags" = Some (VList [])
  ∧ normalize_submission docS !! "description" = Some VNone
  ∧ dom (normalize_submission docS) = item_keys.
Proof.
  destruct (normalize_total_nine_keys docS)
    as (_ & Hdom & _ & _ & _ & Hnull & Htags & _).
  split; [reflexivity|]. split; [reflexivity|].
  split; [exact (proj2 (Htags eq_refl))|].
  split; [|exact Hdom].
  apply (Hnull "description" "description"); [|reflexivity].
  unfold submission_mapping. apply list_elem_of_further, list_elem_of_here.
Defined.

Lemma list_by_kind_bounded_witness :
  0 ≤ 1
  ∧ Z.of_nat (length [doc_due]) ≤ 1
  ∧ ∃ (its : list dict) (w' : world sample_store),
      list_projects (sample_storage None) 1 (world0 []) = (Ok {| items := its |}, w')
      ∧ its = (λ i, _serialize (Some i)) <$> [doc_due]
      ∧ Z.of_nat (length its) ≤ 1.
Proof.
  split; [lia|]. split; [simpl; lia|].
  apply (proj1 (list_by_kind_bounded (sample_storage None) 1 (world0 [])
                  [doc_due] (store (world0 [])) ltac:(lia) ltac:(simpl; lia))).
  reflexivity.
Defined.

Lemma storage_failure_is_500_witness :
  (list_projects (sample_storage None) 5 (world0 ["project"])).1
  = Raised (HTTPException 500 "connection refused")
  ∧ (combined_portfolio (sample_storage None) 5 (world0 ["submission"])).1
    = Raised (HTTPException 500 "connection refused")
  ∧ (submit_portfolio (sample_storage None) item_ok (world0 ["submission"])).1
    = Raised (HTTPException 500 "connection refused").
Proof.
  split; [|split].
  - destruct (storage_failure_is_500 (sample_storage None) 5 item_ok
                (world0 ["project"]) refused) as (Hp & _).
    exact (proj1 (Hp _ eq_refl)).
  - destruct (storage_failure_is_500 (sample_storage None) 5 item_ok
                (world0 ["submission"]) refused) as (_ & _ & Hs & _).
    exact (Hs [doc_due] _ _ eq_refl eq_refl).
  - destruct (storage_failure_is_500 (sample_storage None) 5 item_ok
                (world0 ["submission"]) refused) as (_ & _ & _ & Hc).
    exact (Hc _ eq_refl).
Defined.

Lemma submit_validates_before_storage_witness :
  body_no_title !! "title" = None
  ∧ (∃ errors : list schemas.field_error,
       post_api_submit (sample_storage None) body_no_title (world0 [])
       = (Raised (RequestValidationError errors), world0 [])
       ∧ schemas.Missing "title" ∈ errors)
  ∧ schemas.validate_Submission body_ok = inr item_ok
  ∧ post_api_submit (sample_storage None) body_ok (world0 [])
    = (Ok {| success := true; id := "65c3" |},
       World (SampleStore [doc_due] [docS; sample_document item_ok] [])
         [Call_create_document "submission" item_ok]).
Proof.
  split; [reflexivity|]. split; [|split; [reflexivity|]].
  - apply (proj1 (submit_validates_before_storage (sample_storage None)
                    body_no_title (world0 [])) "title");
      [by right|reflexivity].
  - apply (proj2 (submit_validates_before_storage (sample_storage None)
                    body_ok (world0 [])) item_ok "65c3");
      reflexivity.
Defined.

Example utf8_encode_cross : utf8_encode [10060%N] = "❌".
Proof. reflexivity. Qed.

Example sixty_crosses_cut :
  String.length (exn_str sixty_crosses) = 180%nat
  ∧ str_take 50 (exn_str sixty_crosses) = utf8_encode (replicate 50 10060%N)
  ∧ String.length (str_take 50 (exn_str sixty_crosses)) = 150%nat.
Proof. repeat split; vm_compute; reflexivity. Qed.

Lemma test_database_never_raises_witness :
  db (sample_storage None) = None
  ∧ (∃ (response : dict) (w' : world sample_store),
       test_database (sample_storage None) env_url (world0 []) = (Ok response, w')
       ∧ response !! "database" = Some (VStr "⚠️  Available but not initialized"))
  ∧ exn_str sixty_crosses = utf8_encode (replicate 60 10060%N)
  ∧ (∃ (response : dict) (w' : world sample_store),
       test_database (sample_storage (Some garbled_database)) env_url (world0 [])
       = (Ok response, w')
       ∧ response !! "database"
         = Some (VStr ("⚠️  Connected but Error: "
                       +:+ utf8_encode (replicate 50 10060%N)))).
Proof.
  split; [reflexivity|]. split; [|split; [reflexivity|]].
  - destruct (test_database_never_raises (sample_storage None) env_url (world0 []))
      as (response & w' & Hrun & _ & _ & Hnone & _).
    exists response, w'. split; [exact Hrun|exact (proj1 (Hnone eq_refl))].
  - destruct (test_database_never_raises (sample_storage (Some garbled_database))
                env_url (world0 []))
      as (response & w' & Hrun & _ & _ & _ & Hlist & _).
    exists response, w'. split; [exact Hrun|].
    exact (proj1 (Hlist garbled_database sixty_crosses (store (world0 []))
                    (replicate 60 10060%N) eq_refl
                    ltac:(discriminate) eq_refl eq_refl)).
Defined.

Example test_database_listing_fails :
  (test_database (sample_storage (Some sample_database)) env_url (world0 ["admin"])).1
  = Ok (list_to_map
          [ ("backend", VStr "✅ Running");
            ("database", VStr "⚠️  Connected but Error: connection refused");
            ("database_url", VStr "✅ Set");
            ("database_name", VStr "❌ Not Set");
            ("connection_status", VStr "Connected");
            ("collections", VList []) ]).
Proof. vm_compute. reflexivity. Qed.

Lemma env_fields_depend_on_env_only_witness :
  getenv_truthy env_url "DATABASE_URL" = getenv_truthy env_url "DATABASE_URL"
  ∧ ∃ (r1 r2 : dict) (w1' w2' : world sample_store),
      test_database (sample_storage None) env_url (world0 []) = (Ok r1, w1')
      ∧ test_database (sample_storage (Some sample_database)) env_url
          (world0 ["admin"]) = (Ok r2, w2')
      ∧ r1 !! "database_url" = r2 !! "database_url"
      ∧ r1 !! "database_name" = r2 !! "database_name".
Proof.
  split; [reflexivity|].
  destruct (env_fields_depend_on_env_only (sample_storage None)
              (sample_storage (Some sample_database)) env_url env_url
              (world0 []) (world0 ["admin"]) eq_refl eq_refl)
    as (r1 & r2 & w1' & w2' & H1 & H2 & Hu & Hn & _).
  by exists r1, r2, w1', w2'.
Defined.

(** C10 as stated fails: DATABASE_URL set to the empty string is a set
    variable, and the response reports it as not set. *)
Lemma env_set_but_empty_counterexample :
  (is_Some (env_empty_url !! "DATABASE_URL") ↔ is_Some (env_url !! "DATABASE_URL"))
  ∧ (is_Some (env_empty_url !! "DATABASE_NAME") ↔ is_Some (env_url !! "DATABASE_NAME"))
  ∧ ∃ r1 r2 : dict,
      (test_database (sample_storage None) env_empty_url (world0 [])).1 = Ok r1
      ∧ (test_database (sample_storage None) env_url (world0 [])).1 = Ok r2
      ∧ r1 !! "database_url" = Some (VStr "❌ Not Set")
      ∧ r2 !! "database_url" = Some (VStr "✅ Set")
      ∧ r1 !! "database_url" ≠ r2 !! "database_url".
Proof.
  split; [split; intros _; by eexists|].
  split; [split; intros [x Hx]; discriminate|].
  destruct (test_database_env_fields (sample_storage None) env_empty_url (world0 []))
    as (r1 & w1 & Hrun1 & Hurl1 & _).
  destruct (test_database_env_fields (sample_storage None) env_url (world0 []))
    as (r2 & w2 & Hrun2 & Hurl2 & _).
  exists r1, r2. rewrite Hrun1, Hrun2, Hurl1, Hurl2.
  repeat split; discriminate.
Qed.

(* --------------------------------------------------------------------- *)
(* The further statements on the sample records                          *)
(* --------------------------------------------------------------------- *)

#[local] Existing Instance sample_scalars.

Lemma normalize_id_from_identifier_witness :
  docP !! "_id" = Some (VObjectId "65a1")
  ∧ VObjectId "65a1" ≠ VNone
  ∧ normalize_project docP !! "id" = Some (VStr "65a1")
  ∧ normalize_submission docP !! "id" = Some (VStr "65a1").
Proof.
  split; [reflexivity|]. split; [discriminate|].
  exact (normalize_id_from_identifier docP (VObjectId "65a1")
           eq_refl ltac:(discriminate)).
Defined.

Lemma normalize_id_fallback_witness :
  dict_get doc_own_id "_id" = VNone
  ∧ normalize_project doc_own_id !! "id" = Some (VInt 7)
  ∧ normalize_submission doc_own_id !! "id" = Some (VInt 7).
Proof.
  split; [reflexivity|].
  exact (normalize_id_fallback doc_own_id eq_refl).
Defined.

Lemma normalize_tags_present_witness :
  doc_null_tags !! "tags" = Some VNone
  ∧ normalize_project doc_null_tags !! "tags" = Some VNone
  ∧ normalize_submission doc_null_tags !! "tags" = Some VNone.
Proof.
  split; [reflexivity|].
  exact (normalize_tags_present doc_null_tags VNone eq_refl).
Defined.

Lemma portfolio_submissions_first_witness :
  portfolio_items [docP] [docS] 2 !! 1%nat = Some (normalize_project docP)
  ∧ portfolio_items [docP] [docS] 2 !! 0%nat = Some (normalize_submission docS)
  ∧ (0 < 1)%nat.
Proof.
  split; [reflexivity|]. split; [reflexivity|].
  apply (portfolio_submissions_first [docP] [docS] 2 1 0
           (normalize_project docP) (normalize_submission docS));
    reflexivity.
Defined.

Lemma portfolio_projects_starved_witness :
  0 ≤ 1
  ∧ 1 ≤ Z.of_nat (length [docS])
  ∧ portfolio_items [docP] [docS] 1
    = take 1 (reverse (normalize_submission <$> [docS])).
Proof.
  split; [lia|]. split; [simpl; lia|].
  apply (portfolio_projects_starved [docP] [docS] 1); simpl; lia.
Defined.

Lemma combined_portfolio_two_calls_witness :
  (combined_portfolio (sample_storage None) 5 (world0 [])).2
  = World (SampleStore [doc_due] [docS] [])
      [Call_get_documents "project" ∅ 5; Call_get_documents "submission" ∅ 5].
Proof.
  exact (combined_portfolio_two_calls (sample_storage None) 5 (world0 [])
           [doc_due] (store (world0 [])) eq_refl).
Defined.

Lemma combined_portfolio_stops_at_first_failure_witness :
  combined_portfolio (sample_storage None) 5 (world0 ["project"])
  = (Raised (HTTPException 500 "connection refused"),
     World (SampleStore [doc_due] [docS] ["project"])
       [Call_get_documents "project" ∅ 5]).
Proof.
  exact (combined_portfolio_stops_at_first_failure (sample_storage None) 5
           (world0 ["project"]) refused (store (world0 ["project"])) eq_refl).
Defined.

Lemma test_database_initial_status_dead_witness :
  ∃ response : dict,
    (test_database (sample_storage None) env_url (world0 [])).1 = Ok response
    ∧ response !! "database" ≠ Some (VStr "❌ Not Available").
Proof.
  eexists. split; [reflexivity|].
  apply (test_database_initial_status_dead (sample_storage None) env_url
           (world0 [])).
  reflexivity.
Defined.

Lemma test_database_listing_ok_witness :
  ∃ response : dict,
    (test_database (sample_storage (Some sample_database)) env_url (world0 [])).1
    = Ok response
    ∧ response !! "database" = Some (VStr "✅ Connected & Working")
    ∧ response !! "connection_status" = Some (VStr "Connected")
    ∧ response !! "collections"
      = Some (VList [VStr "project"; VStr "submission"]).
Proof.
  eexists. split; [reflexivity|].
  apply (test_database_listing_ok (sample_storage (Some sample_database))
           env_url (world0 []) sample_database ["project"; "submission"]
           (store (world0 [])));
    [reflexivity|discriminate|reflexivity|reflexivity].
Defined.

Lemma test_database_name_raises_witness :
  exn_str sixty_crosses = utf8_encode (replicate 60 10060%N)
  ∧ ∃ response : dict,
      test_database (sample_storage (Some garbled_name_database)) env_url
        (world0 [])
      = (Ok response, world0 [])
      ∧ response !! "database"
        = Some (VStr ("❌ Error: " +:+ utf8_encode (replicate 50 10060%N)))
      ∧ response !! "connection_status" = Some (VStr "Not Connected")
      ∧ response !! "collections" = Some (VList []).
Proof.
  split; [reflexivity|].
  exact (test_database_name_raises (sample_storage (Some garbled_name_database))
           env_url (world0 []) garbled_name_database sixty_crosses
           (replicate 60 10060%N) eq_refl eq_refl eq_refl).
Defined.

Lemma validate_Submission_null_is_absent_witness :
  "link" ∈ ["description"; "link"; "thumbnail"]
  ∧ schemas.validate_Submission (<["link" := VNone]> body_ok)
    = schemas.validate_Submission (delete "link" body_ok).
Proof.
  assert ("link" ∈ ["description"; "link"; "thumbnail"]) as Hin
    by apply list_elem_of_further, list_elem_of_here.
  split; [exact Hin|].
  exact (validate_Submission_null_is_absent body_ok "link" Hin).
Defined.

Lemma validate_Submission_inr_witness :
  schemas.validate_Submission body_ok = inr item_ok
  ∧ ∃ n t : value,
      body_ok !! "name" = Some n
      ∧ schemas.validate_str n = Some "bob"
      ∧ body_ok !! "title" = Some t
      ∧ schemas.validate_str t = Some "S".
Proof.
  split; [reflexivity|].
  exact (validate_Submission_inr body_ok item_ok eq_refl).
Defined.

Lemma validate_Submission_defaults_witness :
  body_ok !! "name" = Some (VStr "bob")
  ∧ body_ok !! "tags" = None
  ∧ schemas.validate_Submission body_ok
    = inr (schemas.Build_Submission "bob" "S" None None None []).
Proof.
  split; [reflexivity|]. split; [reflexivity|].
  exact (validate_Submission_defaults body_ok (VStr "bob") (VStr "S") "bob" "S"
           eq_refl eq_refl eq_refl eq_refl eq_refl eq_refl eq_refl eq_refl).
Defined.

Example validate_bad_tags :
  schemas.validate_Submission body_bad_tags
  = inl [schemas.InvalidItem "tags" 1; schemas.InvalidItem "tags" 3].
Proof. reflexivity. Qed.

Lemma validate_Submission_error_locs_witness :
  body_bad_tags !! "tags" = Some (VList [VStr "a"; VInt 1; VStr "b"; VInt 2])
  ∧ schemas.InvalidItem "tags" 3
    ∈ schemas.errors_of (schemas.validate_Submission body_bad_tags).
Proof.
  split; [reflexivity|].
  apply (proj2 (validate_Submission_error_locs body_bad_tags)
           [VStr "a"; VInt 1; VStr "b"; VInt 2] 3%nat eq_refl).
  exists (VInt 2). split; reflexivity.
Defined.

Lemma validate_Project_title_only_witness :
  body_ok !! "title" = Some (VStr "S")
  ∧ body_no_title !! "title" = None
  ∧ (∃ errors : list schemas.field_error,
       schemas.validate_Project body_no_title = inl errors
       ∧ schemas.Missing "title" ∈ errors)
  ∧ schemas.validate_Project body_project
    = inr (schemas.Build_Project "P" None None None None None []).
Proof.
  split; [reflexivity|]. split; [reflexivity|]. split.
  - exact (proj1 (validate_Project_title_only body_no_title) eq_refl).
  - exact (proj2 (validate_Project_title_only body_project) (VStr "P") "P"
             eq_refl eq_refl eq_refl eq_refl eq_refl eq_refl eq_refl eq_refl).
Defined.

Lemma validate_User_inr_witness :
  schemas.validate_User body_user
  = inr (schemas.Build_User "ann" "ann@x.org" "1 Main St" (Some 41) true)
  ∧ (0 ≤ 41 ∧ 41 ≤ 120)
  ∧ (body_user !! "is_active" = None → true = true).
Proof.
  split; [reflexivity|].
  exact (validate_User_inr body_user
           (schemas.Build_User "ann" "ann@x.org" "1 Main St" (Some 41) true)
           eq_refl).
Defined.
